(** * Digest job lifecycle, usage limit and viewer sync: model and properties

    A shallow embedding of

    - the digest service ([getDigest], [writeDigest]) over the keyed store
      with expiry,
    - the digest router (create digest, get digest, feedback),
    - the usage-limit plugin of the GraphQL server ([usageLimitPlugin]),
    - the viewer fetch of the mobile client ([fetchViewer], [persist]),

    followed by the properties established about them. *)

From Stdlib Require Import ZArith Lia Bool.
From stdpp Require Import base option list strings pretty gmap.

Set Warnings "-register-all".
Open Scope Z_scope.

(** ** JavaScript values and JSON documents *)

Module Js.

(** A JavaScript [number]. The finite ones are represented by integers
    (the only numbers of the records below are counts); the three
    non-finite ones are kept apart because [JSON.stringify] turns them
    into [null]. *)
Inductive JsNumber :=
| Finite (z : Z)
| NaN
| PosInfinity
| NegInfinity.

(** The documents of the JSON grammar: what [JSON.stringify] produces and
    what the keyed store and a response body hold. An object is the list
    of its members in textual order. *)
Inductive Json :=
| JsonNull
| JsonBool (b : bool)
| JsonNum (z : Z)
| JsonStr (s : string)
| JsonArr (js : list Json)
| JsonObj (members : list (string * Json)).

(** Runtime values. A (valid) [Date] is represented by its ISO-8601
    rendering, the string [toISOString()] returns for it. An object is the
    list of its own properties in insertion order; the objects the program
    builds have pairwise distinct keys. *)
Inductive JsValue :=
| JUndefined
| JNull
| JBool (b : bool)
| JNum (n : JsNumber)
| JStr (s : string)
| JDate (iso : string)
| JArr (vs : list JsValue)
| JObj (props : list (string * JsValue)).

Definition JsObject : Type := list (string * JsValue).

(** [JSON.stringify v]; [None] is the [undefined] it returns for
    [undefined]. Inside an array [undefined] is written [null], inside an
    object a property whose value is [undefined] is left out; a [Date] is
    written as its ISO string, a non-finite number as [null]. *)
Fixpoint JSON_stringify (v : JsValue) : option Json :=
  match v with
  | JUndefined => None
  | JNull => Some JsonNull
  | JBool b => Some (JsonBool b)
  | JNum (Finite z) => Some (JsonNum z)
  | JNum _ => Some JsonNull
  | JStr s => Some (JsonStr s)
  | JDate iso => Some (JsonStr iso)
  | JArr vs =>
      Some (JsonArr (map (fun x => default JsonNull (JSON_stringify x)) vs))
  | JObj props =>
      Some (JsonObj
              (omap (fun e => pair (fst e) <$> JSON_stringify (snd e)) props))
  end.

(** [JSON.stringify o] for an object [o]: always a document. *)
Definition stringifyObject (o : JsObject) : Json :=
  JsonObj (omap (fun e => pair (fst e) <$> JSON_stringify (snd e)) o).

(** [JSON.parse] on a document. *)
Fixpoint JSON_parse (j : Json) : JsValue :=
  match j with
  | JsonNull => JNull
  | JsonBool b => JBool b
  | JsonNum z => JNum (Finite z)
  | JsonStr s => JStr s
  | JsonArr js => JArr (map JSON_parse js)
  | JsonObj members =>
      JObj (map (fun e => (fst e, JSON_parse (snd e))) members)
  end.

(** Truthiness, as [if (v)] and [!v] test it. *)
Definition truthy (v : JsValue) : bool :=
  match v with
  | JUndefined | JNull => false
  | JBool b => b
  | JNum (Finite z) => negb (z =? 0)
  | JNum NaN => false
  | JNum _ => true
  | JStr s => negb (String.eqb s "")
  | JDate _ | JArr _ | JObj _ => true
  end.

(** [k in o] for an object [o] and one of the keys used here (none of
    them is inherited from [Object.prototype]). *)
Definition has_prop (k : string) (o : JsObject) : bool :=
  existsb (fun e => String.eqb (fst e) k) o.

(** [o[k]] on an object: [undefined] when the key is absent. *)
Fixpoint get_prop (k : string) (o : JsObject) : JsValue :=
  match o with
  | [] => JUndefined
  | (k', v) :: o' => if String.eqb k' k then v else get_prop k o'
  end.

(** [delete o.k]. *)
Definition delete_prop (k : string) (o : JsObject) : JsObject :=
  List.filter (fun e => negb (String.eqb (fst e) k)) o.

(** Defining the property [k] on [o]: an existing key keeps its place and
    takes the new value, a new key goes last. *)
Fixpoint set_prop (k : string) (v : JsValue) (o : JsObject) : JsObject :=
  match o with
  | [] => [(k, v)]
  | (k', v') :: o' =>
      if String.eqb k' k then (k', v) :: o' else (k', v') :: set_prop k v o'
  end.

(** The spread [{ ...acc, ...src }] inside an object literal: the
    properties of [src] are defined on [acc] from first to last. *)
Definition spread (src acc : JsObject) : JsObject :=
  fold_left (fun o e => set_prop (fst e) (snd e) o) src acc.

(** [v.k] for a value [v] that is neither [null] nor [undefined]:
    [undefined] unless [v] is an object that has the key. *)
Definition member (v : JsValue) (k : string) : JsValue :=
  match v with
  | JObj props => get_prop k props
  | _ => JUndefined
  end.

(** [v?.k]. *)
Definition optMember (v : JsValue) (k : string) : JsValue :=
  match v with
  | JUndefined | JNull => JUndefined
  | _ => member v k
  end.

(** [v === s] for a string [s]. *)
Definition strictEqStr (v : JsValue) (s : string) : bool :=
  match v with
  | JStr s' => String.eqb s' s
  | _ => false
  end.

(** Values that contain no [undefined], no [Date] and no non-finite
    number: the values that are JSON documents already. *)
Fixpoint jsonClean (v : JsValue) : bool :=
  match v with
  | JUndefined | JDate _ => false
  | JNum (Finite _) => true
  | JNum _ => false
  | JNull | JBool _ | JStr _ => true
  | JArr vs => forallb jsonClean vs
  | JObj props => forallb (fun e => jsonClean (snd e)) props
  end.

End Js.

(** ** The server's world: keyed store, clock, collaborators' traces *)

Module Runtime.
Import Js.

(** What a call to a collaborator ends in. *)
Inductive Outcome (A : Type) :=
| Returns (a : A)
| Throws.
Arguments Returns {A} a.
Arguments Throws {A}.

(** An entry of the keyed store: the document held and the second at
    which it expires. The store is taken to hold the text of JSON
    documents, as [writeDigest] writes them; text that does not parse is
    outside this model. *)
Record RedisEntry := mkEntry {
  entryValue : Json;
  expiresAt : Z
}.

(** [redisDataSource.redisClient]: absent ([None]) or a client over the
    keys it holds. *)
Abbreviation RedisClient := (option (gmap string RedisEntry)).

(** One invocation of the enqueue collaborator: the job data and the
    schedule handed over. *)
Record EnqueueCall := mkCall {
  callData : JsObject;
  callSchedule : JsValue
}.

(** The argument of [analytics.capture]. *)
Record AnalyticsEvent := mkEvent {
  distinctId : string;
  event : string;
  properties : JsObject
}.

(** The lines the router hands to the logger. *)
Inductive LogEntry :=
| TokenNotFound
| ClaimsError
| UserNotFound (userId : string)
| NotGranted (userId : string)
| JobIsRunning (userId : string)
| EnqueueError
| DigestNotFound (userId : string)
| GetDigestError
| InvalidFeedbackFormat
| SendingFeedback (feedback : option Json)
| SaveFeedbackError
| WriteDigestError (userId : string).

Record World := mkWorld {
  redisClient : RedisClient;
  now : Z;                          (* wall clock, in seconds *)
  uuidCount : nat;                  (* identifiers drawn so far *)
  enqueueCalls : list EnqueueCall;  (* invocations of the enqueue collaborator *)
  captured : list AnalyticsEvent;   (* events handed to the analytics sink *)
  logged : list LogEntry
}.

Definition setRedis (r : RedisClient) (w : World) : World :=
  mkWorld r (now w) (uuidCount w) (enqueueCalls w) (captured w) (logged w).

Definition setNow (t : Z) (w : World) : World :=
  mkWorld (redisClient w) t (uuidCount w) (enqueueCalls w) (captured w)
          (logged w).

(** Time passing while nothing else happens. *)
Definition elapse (seconds : Z) (w : World) : World :=
  setNow (now w + seconds) w.

(** Computations of the server: they read and change the world and
    either return or throw. *)
Definition M (A : Type) : Type := World -> Outcome A * World.

Definition ret {A} (a : A) : M A := fun w => (Returns a, w).

Definition throw {A} : M A := fun w => (Throws, w).

Definition bind {A B} (c : M A) (k : A -> M B) : M B :=
  fun w =>
    match c w with
    | (Returns a, w') => k a w'
    | (Throws, w') => (Throws, w')
    end.

(** [try { c } catch { handler }] around a block that ends in a value. *)
Definition tryCatch {A} (c : M A) (handler : World -> A * World)
  : World -> A * World :=
  fun w =>
    match c w with
    | (Returns a, w') => (a, w')
    | (Throws, w') => handler w'
    end.

(** Awaiting a collaborator that does not touch the world. *)
Definition await {A} (o : Outcome A) : M A := fun w => (o, w).

Definition addLog (entry : LogEntry) (w : World) : World :=
  mkWorld (redisClient w) (now w) (uuidCount w) (enqueueCalls w)
          (captured w) (logged w ++ [entry]).

Definition log (entry : LogEntry) : M unit :=
  fun w => (Returns tt, addLog entry w).

(** The computations form a monad; its bind is written [x ← c; k] and
    [c;; k]. *)
#[global] Instance M_ret : MRet M := @ret.
#[global] Instance M_bind : MBind M := fun A B k c => bind c k.

(** *** The keyed store with expiry *)

(** [GET key]: the document under the key, unless it has expired. *)
Definition redisGet (key : string) (t : Z) (store : gmap string RedisEntry)
  : option Json :=
  match store !! key with
  | Some e => if t <? expiresAt e then Some (entryValue e) else None
  | None => None
  end.

(** [SET key value EX ttl]: the key holds the document for [ttl] seconds
    from now on. *)
Definition redisSet (key : string) (value : Json) (ttl : Z) (t : Z)
    (store : gmap string RedisEntry) : gmap string RedisEntry :=
  <[key := mkEntry value (t + ttl)]> store.

End Runtime.

(** ** The digest service *)

Module DigestService.
Import Js Runtime.

(** Modelled from the spec: the enumeration [TaskState] of the generated
    GraphQL types, which are not among the sources. The spec gives a job
    the states Pending, Running, Succeeded and Failed; the values are taken
    to be the upper-case names, as a GraphQL enumeration is generated. *)
Inductive TaskState :=
| Pending
| Running
| Succeeded
| Failed.

#[global] Instance TaskState_eq_dec : EqDecision TaskState.
Proof. solve_decision. Defined.

Definition taskStateValue (s : TaskState) : string :=
  match s with
  | Pending => "PENDING"
  | Running => "RUNNING"
  | Succeeded => "SUCCEEDED"
  | Failed => "FAILED"
  end.

Record Chapter := mkChapter {
  chapterTitle : string;
  chapterId : string;
  chapterUrl : string;
  wordCount : JsNumber;
  thumbnail : option string
}.

(** The interface [Digest]. [createdAt] is a [Date], held as its ISO
    rendering; a [SpeechFile] comes from another package and is kept as the
    value it is at run time. *)
Record Digest := mkDigest {
  id : string;
  jobState : TaskState;
  createdAt : option string;
  description : option string;
  byline : option string;
  url : option string;
  title : option string;
  content : option string;
  chapters : option (list Chapter);
  urlsToAudio : option (list string);
  speechFiles : option (list JsValue)
}.

(** An optional property: present when the field is set. *)
Definition optional {A} (k : string) (f : A -> JsValue) (o : option A)
  : JsObject :=
  match o with
  | Some a => [(k, f a)]
  | None => []
  end.

(** The objects these records are at run time. *)
Definition chapterToJs (c : Chapter) : JsValue :=
  JObj ([("title", JStr (chapterTitle c));
         ("id", JStr (chapterId c));
         ("url", JStr (chapterUrl c));
         ("wordCount", JNum (wordCount c))]
          ++ optional "thumbnail" JStr (thumbnail c)).

(** The properties of a digest, for a given rendering of its date. *)
Definition digestPropsWith (date : string -> JsValue) (d : Digest)
  : JsObject :=
  [("id", JStr (id d)); ("jobState", JStr (taskStateValue (jobState d)))]
    ++ optional "createdAt" date (createdAt d)
    ++ optional "description" JStr (description d)
    ++ optional "byline" JStr (byline d)
    ++ optional "url" JStr (url d)
    ++ optional "title" JStr (title d)
    ++ optional "content" JStr (content d)
    ++ optional "chapters" (fun cs => JArr (map chapterToJs cs)) (chapters d)
    ++ optional "urlsToAudio" (fun us => JArr (map JStr us)) (urlsToAudio d)
    ++ optional "speechFiles" JArr (speechFiles d).

(** A [Digest] as the object it is when it is written: [createdAt] is a
    [Date]. *)
Definition digestToJs (d : Digest) : JsValue := JObj (digestPropsWith JDate d).

(** The same record with [createdAt] as the ISO string of the date. *)
Definition digestAsRead (d : Digest) : JsValue :=
  JObj (digestPropsWith JStr d).

Definition finite (n : JsNumber) : bool :=
  match n with
  | Finite _ => true
  | _ => false
  end.

(** The word counts of the chapters are finite numbers and the speech
    files are JSON documents. *)
Definition plainData (d : Digest) : bool :=
  forallb (fun c => finite (wordCount c)) (default [] (chapters d))
  && forallb jsonClean (default [] (speechFiles d)).

Definition digestKey (userId : string) : string := "digest:" +:+ userId.

(** One week, in seconds: [60 * 60 * 24 * 7]. *)
Definition oneWeek : Z := 60 * 60 * 24 * 7.

(** [getDigest]: the parsed document under the user's key, [null] when
    there is no client, no key, or the key has expired. What comes back
    is the result of [JSON.parse], cast to [Digest]. *)
Definition getDigest (userId : string) : M JsValue :=
  fun w =>
    match redisClient w with
    | Some store =>
        match redisGet (digestKey userId) (now w) store with
        | Some digest => (Returns (JSON_parse digest), w)
        | None => (Returns JNull, w)
        end
    | None => (Returns JNull, w)
    end.

(** [writeDigest]: the serialised record is set under the user's key for
    one week; without a client nothing is written, the error is logged
    and thrown. *)
Definition writeDigest (userId : string) (digest : Digest) : M unit :=
  fun w =>
    match redisClient w with
    | Some store =>
        (Returns tt,
         setRedis
           (Some (redisSet (digestKey userId)
                           (stringifyObject (digestPropsWith JDate digest))
                           oneWeek (now w) store)) w)
    | None => (log (WriteDigestError userId);; throw) w
    end.

End DigestService.

(** ** The digest router *)

Module Router.
Import Js Runtime DigestService.

Record Claims := mkClaims { uid : string }.

(** The feature the three routes ask for. *)
Inductive FeatureName := AIDigest.

(** The collaborators of the router that are not part of it: the token
    resolver, the account and entitlement lookups (only tested for a
    result), the identifier generator (its [n]-th draw), the enqueue
    collaborator (what it returns and what it does to the keyed store, at
    a given time) and the server environment. *)
Record Deps := mkDeps {
  getClaimsByToken : option string -> Outcome (option Claims);
  findActiveUser : string -> Outcome bool;
  findGrantedFeatureByName : FeatureName -> string -> Outcome bool;
  uuid : nat -> string;
  enqueueCollaborator :
    EnqueueCall -> Z -> RedisClient -> Outcome JsValue * RedisClient;
  apiEnv : string
}.

(** A request: the token [getTokenByRequest] finds in it and its parsed
    body. *)
Record Request := mkRequest {
  token : option string;
  body : JsObject
}.

Inductive Body :=
| StatusText                      (* [sendStatus]: the reason phrase *)
| Sent (document : option Json).  (* [send]: the value, serialised *)

Record Response := mkResponse {
  status : Z;
  payload : Body
}.

Definition sendStatus (code : Z) : Response := mkResponse code StatusText.

(** [res.status(code).send(v)] for the objects the routes send: the value
    goes out as its JSON text under the status set. *)
Definition send (code : Z) (v : JsValue) : Response :=
  mkResponse code (Sent (JSON_stringify v)).

(** [uuid()]: the next identifier. *)
Definition nextUuid (deps : Deps) : M string :=
  fun w =>
    (Returns (uuid deps (uuidCount w)),
     mkWorld (redisClient w) (now w) (S (uuidCount w)) (enqueueCalls w)
             (captured w) (logged w)).

(** [enqueueCreateDigest(data, schedule)]: the invocation is recorded and
    the collaborator runs; its code is not among the sources, so what it
    returns and writes is left to [enqueueCollaborator]. *)
Definition enqueueCreateDigest (deps : Deps) (data : JsObject)
    (schedule : JsValue) : M JsValue :=
  fun w =>
    let call := mkCall data schedule in
    let '(result, store) :=
      enqueueCollaborator deps call (now w) (redisClient w) in
    (result,
     mkWorld store (now w) (uuidCount w) (enqueueCalls w ++ [call])
             (captured w) (logged w)).

(** Modelled from the spec: the enqueue collaborator as the spec's
    external interfaces describe it, [enqueue(jobRequest, schedule?) →
    acceptedRecord]: it pushes the request to a task queue outside this
    core and returns the accepted record, the job in state Pending under
    the identifier of the request; the keyed store is not its concern. *)
Definition queueOnly (call : EnqueueCall) (t : Z) (store : RedisClient)
  : Outcome JsValue * RedisClient :=
  (Returns (JObj [("id", get_prop "id" (callData call));
                  ("jobState", JStr (taskStateValue Pending))]),
   store).

(** [analytics.capture(event)] with an analytics client whose call
    returns: the event is handed over, nothing is awaited. *)
Definition capture (e : AnalyticsEvent) : M unit :=
  fun w =>
    (Returns tt,
     mkWorld (redisClient w) (now w) (uuidCount w) (enqueueCalls w)
             (captured w ++ [e]) (logged w)).

(** The first [try] block of each route: the user id of the claims, or
    the 401 the block returns. *)
Definition resolveUserId (deps : Deps) (req : Request)
  : World -> (Response + string) * World :=
  tryCatch
    (claims ← await (getClaimsByToken deps (token req));
     match claims with
     | None => log TokenNotFound;; mret (inl (sendStatus 401))
     | Some claims => mret (inr (uid claims))
     end)
    (fun w => (inl (sendStatus 401), addLog ClaimsError w)).

(** [POST /v1]: create a digest. *)
Definition createDigest (deps : Deps) (req : Request)
  : World -> Response * World :=
  fun w =>
    match resolveUserId deps req w with
    | (inl response, w) => (response, w)
    | (inr userId, w) =>
        tryCatch
          (user ← await (findActiveUser deps userId);
           if negb user then
             log (UserNotFound userId);; mret (sendStatus 401)
           else
             feature ← await (findGrantedFeatureByName deps AIDigest userId);
             if negb feature then
               log (NotGranted userId);; mret (sendStatus 403)
             else
               let data := body req in
               digest ← getDigest userId;
               if strictEqStr (optMember digest "jobState")
                              (taskStateValue Running)
               then
                 log (JobIsRunning userId);; mret (sendStatus 202)
               else
                 jobId ← nextUuid deps;
                 result ← enqueueCreateDigest deps
                   (spread data [("id", JStr jobId); ("userId", JStr userId)])
                   (get_prop "schedule" data);
                 mret (send 201 result))
          (fun w => (sendStatus 500, addLog EnqueueError w))
          w
    end.

(** [GET /v1]: the digest of the caller. *)
Definition getDigestRoute (deps : Deps) (req : Request)
  : World -> Response * World :=
  fun w =>
    match resolveUserId deps req w with
    | (inl response, w) => (response, w)
    | (inr userId, w) =>
        tryCatch
          (user ← await (findActiveUser deps userId);
           if negb user then
             log (UserNotFound userId);; mret (sendStatus 401)
           else
             feature ← await (findGrantedFeatureByName deps AIDigest userId);
             if negb feature then
               log (NotGranted userId);; mret (sendStatus 403)
             else
               digest ← getDigest userId;
               if negb (truthy digest) then
                 log (DigestNotFound userId);; mret (sendStatus 404)
               else if strictEqStr (member digest "jobState")
                                   (taskStateValue Running)
               then
                 mret (send 200 (JObj [("jobId", member digest "id");
                                       ("jobState", member digest "jobState")]))
               else
                 mret (send 200 digest))
          (fun w => (sendStatus 500, addLog GetDigestError w))
          w
    end.

(** The type guard [isFeedback]. *)
Definition isFeedback (data : JsObject) : bool :=
  has_prop "digestRating" data
  && has_prop "rankingRating" data
  && has_prop "summaryRating" data
  && has_prop "voiceRating" data
  && has_prop "musicRating" data.

(** [POST /v1/feedback]. *)
Definition sendFeedback (deps : Deps) (req : Request)
  : World -> Response * World :=
  fun w =>
    match resolveUserId deps req w with
    | (inl response, w) => (response, w)
    | (inr userId, w) =>
        tryCatch
          (user ← await (findActiveUser deps userId);
           if negb user then
             log (UserNotFound userId);; mret (sendStatus 401)
           else
             feature ← await (findGrantedFeatureByName deps AIDigest userId);
             if negb feature then
               log (NotGranted userId);; mret (sendStatus 403)
             else if negb (isFeedback (body req)) then
               log InvalidFeedbackFormat;; mret (sendStatus 400)
             else
               let feedback := body req in
               log (SendingFeedback (JSON_stringify (JObj feedback)));;
               let feedback := delete_prop "comment" feedback in
               capture (mkEvent userId "digest_feedback"
                          (set_prop "env" (JStr (apiEnv deps))
                                    (spread feedback [])));;
               mret (sendStatus 200))
          (fun w => (sendStatus 500, addLog SaveFeedbackError w))
          w
    end.

End Router.

(** ** The usage-limit plugin of the GraphQL server *)

Module UsageLimit.
Import Js Runtime.

(** What the plugin reads of a request: the query text and the user id of
    the claims, either of which may be missing. *)
Record RequestContext := mkContext {
  query : option string;
  claimsUid : option string
}.

(** The ledger: counts per user, action and calendar day. *)
Record Ledger := mkLedger {
  counts : gmap (string * string * Z) Z;
  today : Z;                       (* the current calendar day *)
  executed : list RequestContext   (* the requests that were executed *)
}.

(** Modelled from the spec: [countDailyServiceUsage] of the service-usage
    module, which is not among the sources. The spec's usage record is a
    counter keyed by (user, action, calendar day); this reads today's. *)
Definition countDailyServiceUsage (userId action : string) (l : Ledger) : Z :=
  default 0 (counts l !! (userId, action, today l)).

(** Modelled from the spec: [createServiceUsage] of the same module:
    [RecordUsage] increments today's counter of the user and action. *)
Definition createServiceUsage (userId action : string) (l : Ledger) : Ledger :=
  mkLedger
    (<[(userId, action, today l) :=
         countDailyServiceUsage userId action l + 1]> (counts l))
    (today l) (executed l).

Definition MAX_SENT_EMAIL_PER_DAY : Z := 3.

Definition action : string := "replyToEmail".

(** What the plugin reads of a response: the error list, if there is one,
    and the data. *)
Record GraphQLResponse := mkGraphQLResponse {
  errors : option (list string);
  data : JsValue
}.

(** [s.includes(sub)]. *)
Definition includes (sub s : string) : bool :=
  match String.index 0 sub s with
  | Some _ => true
  | None => false
  end.

(** [userId && query?.includes(action)]: the user the limit applies to
    in this request, if it applies. *)
Definition gatedUser (ctx : RequestContext) : option string :=
  match claimsUid ctx, query ctx with
  | Some userId, Some q =>
      if negb (String.eqb userId "") && includes action q
      then Some userId else None
  | _, _ => None
  end.

(** The condition of [willSendResponse] on the response:
    [!response.errors && !response.data?.replyToEmail?.errorCodes]. *)
Definition withoutErrors (response : GraphQLResponse) : bool :=
  match errors response with
  | Some _ => false
  | None =>
      negb (truthy (optMember (optMember (data response) "replyToEmail")
                              "errorCodes"))
  end.

(** The hook [willSendResponse] that [requestDidStart] returns. *)
Definition willSendResponse (ctx : RequestContext)
    (response : GraphQLResponse) (l : Ledger) : Ledger :=
  match gatedUser ctx with
  | Some userId =>
      if withoutErrors response then createServiceUsage userId action l
      else l
  | None => l
  end.

(** [requestDidStart]: throws when the user has reached the daily limit,
    otherwise returns the hooks of the request. *)
Definition requestDidStart (ctx : RequestContext) (l : Ledger)
  : Outcome (GraphQLResponse -> Ledger -> Ledger) :=
  match gatedUser ctx with
  | Some userId =>
      if MAX_SENT_EMAIL_PER_DAY <=? countDailyServiceUsage userId action l
      then Throws
      else Returns (willSendResponse ctx)
  | None => Returns (willSendResponse ctx)
  end.

(** What a request ends in. *)
Inductive Served :=
| Rejected                              (* the plugin threw at the start *)
| Responded (response : GraphQLResponse).

(** The request pipeline of the server, as far as the plugin takes part:
    the plugin's [requestDidStart] runs first and a throw ends the
    request; otherwise the operation is executed, and the hook sees the
    response before it is sent. [execute] is the outcome of the
    operation. *)
Definition serve (execute : RequestContext -> GraphQLResponse)
    (ctx : RequestContext) (l : Ledger) : Served * Ledger :=
  match requestDidStart ctx l with
  | Throws => (Rejected, l)
  | Returns hook =>
      let response := execute ctx in
      let l := mkLedger (counts l) (today l) (executed l ++ [ctx]) in
      (Responded response, hook response l)
  end.

(** Requests served one after the other, each one finished before the
    next one starts. *)
Fixpoint serveAll
    (requests : list ((RequestContext -> GraphQLResponse) * RequestContext))
    (l : Ledger) : list Served * Ledger :=
  match requests with
  | [] => ([], l)
  | (execute, ctx) :: rest =>
      let '(r, l) := serve execute ctx l in
      let '(rs, l) := serveAll rest l in
      (r :: rs, l)
  end.

End UsageLimit.

(** ** The viewer fetch of the mobile client *)

Module ViewerFetcher.
Import Runtime.

Record Feature := mkFeature {
  featureName : string;
  enabled : bool
}.

(** The [User] object the server answers the query with. *)
Record User := mkUser {
  userId : string;
  profileUsername : string;
  userName : string;
  pictureUrl : option string;
  userIntercomHash : option string;
  featureList : option (list Feature)
}.

Record ViewerInternal := mkViewerInternal {
  userID : string;
  username : string;
  name : string;
  profileImageURL : option string;
  intercomHash : option string;
  digestEnabled : option bool
}.

(** The managed object [Viewer] of the local store. *)
Record Viewer := mkViewer {
  viewerUserID : string;
  viewerUsername : string;
  viewerName : string;
  viewerProfileImageURL : option string;
  viewerDigestEnabled : bool
}.

Inductive BasicError :=
| message (messageText : string).

(** The device: the user id kept in the user defaults, the calls made to
    the intercom and event-tracking hooks, and the saved viewers. *)
Record Device := mkDevice {
  userIdKey : option string;
  registeredIntercomUsers : list string;
  intercomUserHashes : list string;
  savedViewers : list Viewer;
  trackedUsers : list string
}.

(** What is outside the routine: the answer of the network, whether the
    data service is still alive when it arrives, whether saving the
    context succeeds. *)
Record Conditions := mkConditions {
  answer : option User;       (* [.success] with the user, or [.failure] *)
  selfAlive : bool;
  saveSucceeds : bool
}.

(** The selection: how a [ViewerInternal] is built from the answer. *)
Definition selection (u : User) : ViewerInternal :=
  mkViewerInternal (userId u) (profileUsername u) (userName u)
                   (pictureUrl u) (userIntercomHash u) (Some true).

(** [ViewerInternal.persist]. *)
Definition persist (c : Conditions) (v : ViewerInternal) (d : Device)
  : Outcome unit * Device :=
  let viewer :=
    mkViewer (userID v) (username v) (name v) (profileImageURL v)
             (default false (digestEnabled v)) in
  if saveSucceeds c then
    (Returns tt,
     mkDevice (userIdKey d) (registeredIntercomUsers d)
              (intercomUserHashes d) (savedViewers d ++ [viewer])
              (trackedUsers d ++ [userID v]))
  else (Throws, d).

(** [fetchViewer]: the viewer returned, or the error thrown. *)
Definition fetchViewer (c : Conditions) (d : Device)
  : (BasicError + ViewerInternal) * Device :=
  match answer c with
  | Some u =>
      let payload := selection u in
      let d :=
        match userIdKey d with
        | None =>
            mkDevice (Some (userID payload))
                     (registeredIntercomUsers d ++ [userID payload])
                     (intercomUserHashes d) (savedViewers d) (trackedUsers d)
        | Some _ => d
        end in
      let d :=
        match intercomHash payload with
        | Some intercomUserHash =>
            mkDevice (userIdKey d) (registeredIntercomUsers d)
                     (intercomUserHashes d ++ [intercomUserHash])
                     (savedViewers d) (trackedUsers d)
        | None => d
        end in
      if selfAlive c then
        match persist c payload d with
        | (Returns _, d) => (inr payload, d)
        | (Throws, d) => (inl (message "coredata error"), d)
        end
      else (inl (message "no self found"), d)
  | None => (inl (message "http error"), d)
  end.

(** The same answer of the server, reporting another feature list. *)
Definition reporting (features : option (list Feature)) (c : Conditions)
  : Conditions :=
  mkConditions
    ((fun u => mkUser (userId u) (profileUsername u) (userName u)
                      (pictureUrl u) (userIntercomHash u) features)
       <$> answer c)
    (selfAlive c) (saveSucceeds c).

(** A first launch: nothing stored yet. *)
Definition firstLaunch : Device := mkDevice None [] [] [] [].

(** The server answers with an account whose digest feature is listed
    as not enabled. *)
Definition digestOff : Conditions :=
  mkConditions
    (Some (mkUser "u1" "ann" "Ann" None None
                  (Some [mkFeature "digest" false])))
    true true.

End ViewerFetcher.

(** ** Vocabulary of the properties *)

Module Props.
Import Js Runtime DigestService Router.

(** Nothing but the log differs between two worlds: the keyed store, the
    clock, the identifiers drawn, the invocations of the enqueue
    collaborator and the captured events are the same. *)
Definition quiet (w w' : World) : Prop :=
  redisClient w' = redisClient w
  /\ now w' = now w
  /\ uuidCount w' = uuidCount w
  /\ enqueueCalls w' = enqueueCalls w
  /\ captured w' = captured w.

(** The request passes the authorization and entitlement checks as the
    user [userId]. *)
Definition Authorized (deps : Deps) (req : Request) (userId : string) : Prop :=
  getClaimsByToken deps (token req) = Returns (Some (mkClaims userId))
  /\ findActiveUser deps userId = Returns true
  /\ findGrantedFeatureByName deps AIDigest userId = Returns true.

(** The ways the authorization or entitlement check of a request fails,
    with the status each one answers. *)
Inductive Denied (deps : Deps) (req : Request) : Z -> Prop :=
| MissingToken :
    getClaimsByToken deps (token req) = Returns None ->
    Denied deps req 401
| InvalidToken :
    getClaimsByToken deps (token req) = Throws ->
    Denied deps req 401
| NoActiveAccount claims :
    getClaimsByToken deps (token req) = Returns (Some claims) ->
    findActiveUser deps (uid claims) = Returns false ->
    Denied deps req 401
| FeatureNotGranted claims :
    getClaimsByToken deps (token req) = Returns (Some claims) ->
    findActiveUser deps (uid claims) = Returns true ->
    findGrantedFeatureByName deps AIDigest (uid claims) = Returns false ->
    Denied deps req 403.

(** The record stored for the user, if any and not expired. *)
Definition stored (userId : string) (w : World) : option Json :=
  store ← redisClient w; redisGet (digestKey userId) (now w) store.

(** The user has no job in flight as the create route sees it: no record
    is stored, or the stored record of a digest is not Running. *)
Definition NoRunningJob (userId : string) (w : World) : Prop :=
  stored userId w = None
  \/ exists d, stored userId w = JSON_stringify (digestToJs d)
               /\ jobState d <> Running.

(** The invocation of the enqueue collaborator the create route makes for
    the user in world [w]: the job data [{ id: uuid(), userId, ...data }]
    and [data.schedule]. *)
Definition submission (deps : Deps) (req : Request) (userId : string)
    (w : World) : EnqueueCall :=
  mkCall (spread (body req)
                 [("id", JStr (uuid deps (uuidCount w)));
                  ("userId", JStr userId)])
         (get_prop "schedule" (body req)).

(** The five rating fields a feedback must have. *)
Definition requiredRatings : list string :=
  ["digestRating"; "rankingRating"; "summaryRating"; "voiceRating";
   "musicRating"].

(** Two payloads with the same properties, in the same order, once the
    comment is left aside. *)
Definition sameButComment (p1 p2 : JsObject) : Prop :=
  List.filter (fun e => negb (String.eqb (fst e) "comment")) p1
  = List.filter (fun e => negb (String.eqb (fst e) "comment")) p2.

(** What [getDigest] returns for the user. *)
Definition currentDigest (userId : string) (w : World) : JsValue :=
  match stored userId w with
  | Some digest => JSON_parse digest
  | None => JNull
  end.

End Props.

(** ** Sample collaborators and worlds *)

Module Samples.
Import Js Runtime DigestService Router.

(** A token resolves to the user it names, the users [alice] and [bob]
    are active, [alice] alone is granted the feature; the enqueue
    collaborator only queues. *)
Definition deps : Deps :=
  mkDeps
    (fun token => Returns (mkClaims <$> token))
    (fun userId => Returns (bool_decide (userId = "alice" \/ userId = "bob")))
    (fun _ userId => Returns (bool_decide (userId = "alice")))
    (fun n => "job-" +:+ pretty n)
    queueOnly
    "prod".

(** A store with a client and no keys, at second 0. *)
Definition fresh : World := mkWorld (Some ∅) 0 0 [] [] [].

Definition job (jobId : string) (state : TaskState) : Digest :=
  mkDigest jobId state None None None None None None None None None.

(** The world in which [alice]'s job [J] is in the given state. *)
Definition holding (state : TaskState) : World :=
  snd (writeDigest "alice" (job "J" state) fresh).

Definition asAlice (body : JsObject) : Request := mkRequest (Some "alice") body.

Definition asBob (body : JsObject) : Request := mkRequest (Some "bob") body.

(** A feedback with the five ratings, some of them not even numbers. *)
Definition ratings : JsObject :=
  [("digestRating", JNum (Finite 5));
   ("rankingRating", JStr "high");
   ("summaryRating", JNull);
   ("voiceRating", JNum (Finite (-7)));
   ("musicRating", JNum NaN)].

(** A finished digest with its creation date. *)
Definition dated : Digest :=
  mkDigest "J" Succeeded (Some "2024-05-01T08:00:00.000Z") None None None
           (Some "Weekly Digest") None None None None.

End Samples.

(** ** The request context of the GraphQL server *)

Module ApolloContext.
Import Js Runtime Router.

(** [a || b] on two optional strings: [a] when it is a non-empty string,
    otherwise [b]. *)
Definition orElse (a b : option string) : option string :=
  match a with
  | Some s => if String.eqb s "" then b else Some s
  | None => b
  end.

(** [a || b] when [b] is a string. *)
Definition orString (a : option string) (b : string) : string :=
  match a with
  | Some s => if String.eqb s "" then b else s
  | None => b
  end.

(** A statement handed to the entity manager, with its parameters. *)
Record Query := mkQuery {
  statement : string;
  parameters : list string
}.

(** The entity manager: the statements it has run, and whether the
    database answers. *)
Record EntityManager := mkEntityManager {
  ran : list Query;
  reachable : bool
}.

(** [em.query(statement, parameters)]. *)
Definition emQuery (q : Query) (em : EntityManager)
  : Outcome unit * EntityManager :=
  if reachable em then (Returns tt, mkEntityManager (ran em ++ [q]) true)
  else (Throws, em).

Definition nobody : string := "00000000-0000-0000-0000-000000000000".

(** The user id [setClaims] sets:
    [(claims && claims.uid) || uuid || '00000000-…']. *)
Definition claimedUid (claims : option Claims) (uuid : option string)
  : string :=
  orString (orElse (uid <$> claims) uuid) nobody.

(** The database role [setClaims] sets; [adminRole] is the constant
    [SetClaimsRole.ADMIN], which is declared outside the sources. *)
Definition dbRole (adminRole : string) (userRole : option string) : string :=
  match userRole with
  | Some role =>
      if String.eqb role adminRole then "omnivore_admin" else "omnivore_user"
  | None => "omnivore_user"
  end.

(** [setClaims(em, uuid, userRole)] of a context built with [claims]. *)
Definition setClaims (adminRole : string) (claims : option Claims)
    (em : EntityManager) (uuid userRole : option string)
  : Outcome unit * EntityManager :=
  emQuery (mkQuery "SELECT * from omnivore.set_claims($1, $2)"
                   [claimedUid claims uuid; dbRole adminRole userRole])
          em.

End ApolloContext.

(** ** Further collaborators and worlds *)

Module Scenarios.
Import Js Runtime DigestService Router.

(** As [Samples.deps], with an account lookup that fails. *)
Definition accountsDown : Deps :=
  mkDeps (getClaimsByToken Samples.deps) (fun _ => Throws)
         (findGrantedFeatureByName Samples.deps) (uuid Samples.deps)
         (enqueueCollaborator Samples.deps) (apiEnv Samples.deps).

(** As [Samples.deps], with a task queue that cannot be reached. *)
Definition queueDown : Deps :=
  mkDeps (getClaimsByToken Samples.deps) (findActiveUser Samples.deps)
         (findGrantedFeatureByName Samples.deps) (uuid Samples.deps)
         (fun _ _ store => (Throws, store)) (apiEnv Samples.deps).

(** No client to the keyed store. *)
Definition offline : World := mkWorld None 0 0 [] [] [].

(** A feedback with a comment. *)
Definition commented : JsObject :=
  Samples.ratings ++ [("comment", JStr "too long")].

End Scenarios.

(** ** The feedback route with an analytics client that may throw *)

Module FeedbackSink.
Import Js Runtime DigestService Router.

(** [analytics.capture(event)] in general: the analytics client is declared
    outside the sources, so whether its call returns or throws for an event
    is left to [sink]. The event is handed over either way; no
    acknowledgement is awaited. *)
Definition captureVia (sink : AnalyticsEvent -> Outcome unit)
    (e : AnalyticsEvent) : M unit :=
  fun w => (sink e, snd (capture e w)).

(** [POST /v1/feedback] with such a client: the route of [sendFeedback],
    where the call to [analytics.capture] stands inside the [try] block. *)
Definition sendFeedbackVia (sink : AnalyticsEvent -> Outcome unit)
    (deps : Deps) (req : Request) : World -> Response * World :=
  fun w =>
    match resolveUserId deps req w with
    | (inl response, w) => (response, w)
    | (inr userId, w) =>
        tryCatch
          (user ← await (findActiveUser deps userId);
           if negb user then
             log (UserNotFound userId);; mret (sendStatus 401)
           else
             feature ← await (findGrantedFeatureByName deps AIDigest userId);
             if negb feature then
               log (NotGranted userId);; mret (sendStatus 403)
             else if negb (isFeedback (body req)) then
               log InvalidFeedbackFormat;; mret (sendStatus 400)
             else
               let feedback := body req in
               log (SendingFeedback (JSON_stringify (JObj feedback)));;
               let feedback := delete_prop "comment" feedback in
               captureVia sink
                 (mkEvent userId "digest_feedback"
                    (set_prop "env" (JStr (apiEnv deps))
                              (spread feedback [])));;
               mret (sendStatus 200))
          (fun w => (sendStatus 500, addLog SaveFeedbackError w))
          w
    end.

(** An analytics client whose call throws. *)
Definition broken : AnalyticsEvent -> Outcome unit := fun _ => Throws.

End FeedbackSink.

(** ** Replies, and requests that overlap *)

Module ReplyExecution.
Import Js Runtime UsageLimit.

(** What the resolver of [replyToEmail] ends in. Its code is not among the
    sources; that an error result carries [errorCodes] is what the plugin
    itself reads. *)
Inductive ReplyOutcome :=
| ReplySent
| ReplyFailed (errorCodes : list string).

(** The text of a request for the mutation, the field under an alias or
    not, selecting the error codes. *)
Definition operationText (alias : option string) : string :=
  "mutation { "
    +:+ match alias with
        | Some a => a +:+ ": "
        | None => ""
        end
    +:+ "replyToEmail(input: $input) { ... on ReplyToEmailError { errorCodes } } }".

(** The response of the server for it, as GraphQL forms a response: the
    result of a field stands under its response key, the alias when there
    is one, and holds the selected fields. *)
Definition replyResponse (alias : option string) (outcome : ReplyOutcome)
  : GraphQLResponse :=
  mkGraphQLResponse None
    (JObj [(default "replyToEmail" alias,
            JObj match outcome with
                 | ReplySent => []
                 | ReplyFailed errorCodes =>
                     [("errorCodes", JArr (map JStr errorCodes))]
                 end)]).

(** A request of a user for the mutation, and how it is executed. *)
Definition replyRequest (userId : string) (alias : option string)
  : RequestContext :=
  mkContext (Some (operationText alias)) (Some userId).

Definition executeReply (alias : option string) (outcome : ReplyOutcome)
  : RequestContext -> GraphQLResponse :=
  fun _ => replyResponse alias outcome.

(** Requests that overlap: each one has started, and been checked against
    the ledger [l0] as it was then, before any of them has finished; then
    they are executed and finish in turn. *)
Fixpoint finishAll (l0 : Ledger)
    (requests : list ((RequestContext -> GraphQLResponse) * RequestContext))
    (l : Ledger) : list Served * Ledger :=
  match requests with
  | [] => ([], l)
  | (execute, ctx) :: rest =>
      match requestDidStart ctx l0 with
      | Throws =>
          let '(rs, l) := finishAll l0 rest l in
          (Rejected :: rs, l)
      | Returns hook =>
          let response := execute ctx in
          let l := mkLedger (counts l) (today l) (executed l ++ [ctx]) in
          let '(rs, l) := finishAll l0 rest (hook response l) in
          (Responded response :: rs, l)
      end
  end.

Definition serveOverlapping
    (requests : list ((RequestContext -> GraphQLResponse) * RequestContext))
    (l : Ledger) : list Served * Ledger :=
  finishAll l requests l.

End ReplyExecution.

(** ** Create, then status, for every user *)

Module Visibility.
Import Js Runtime DigestService Router Props.





End Visibility.

Import Js Runtime DigestService Router Props.

(** ** Stepping through a route *)

Lemma resolveUserId_claims deps req w claims :
  getClaimsByToken deps (token req) = Returns (Some claims) ->
  resolveUserId deps req w = (inr (uid claims), w).
Proof.
  intros H. unfold resolveUserId, tryCatch, mbind, M_bind, bind, await.
  by rewrite H.
Qed.

Lemma quiet_refl w : quiet w w.
Proof. by repeat split. Qed.

Lemma quiet_addLog entry w : quiet w (addLog entry w).
Proof. by repeat split. Qed.

#[local] Hint Resolve quiet_refl quiet_addLog : core.

(** C5. A create-digest request whose authorization or entitlement check
    fails — no or invalid token, no active account: 401; feature not
    granted: 403 — is answered with that bare status and has no side effect:
    the keyed store is as before, no identifier is drawn and the enqueue
    collaborator is not invoked. *)
Theorem submit_denied_no_side_effects deps req code w :
  Denied deps req code ->
  fst (createDigest deps req w) = sendStatus code
  /\ quiet w (snd (createDigest deps req w)).
Proof.
  intros [H | H | claims H Huser | claims H Huser Hfeature].
  - unfold createDigest, resolveUserId, tryCatch, mbind, M_bind, bind, await.
    rewrite H. simpl. auto.
  - unfold createDigest, resolveUserId, tryCatch, mbind, M_bind, bind, await.
    rewrite H. simpl. auto.
  - unfold createDigest. rewrite (resolveUserId_claims _ _ _ _ H).
    unfold tryCatch, mbind, M_bind, bind, await. rewrite Huser. simpl. auto.
  - unfold createDigest. rewrite (resolveUserId_claims _ _ _ _ H).
    unfold tryCatch, mbind, M_bind, bind, await.
    rewrite Huser. simpl. rewrite Hfeature. simpl. auto.
Qed.

Lemma submit_denied_no_side_effects_witness :
  Denied Samples.deps (Samples.asBob []) 403
  /\ fst (createDigest Samples.deps (Samples.asBob []) Samples.fresh)
     = sendStatus 403
  /\ quiet Samples.fresh
           (snd (createDigest Samples.deps (Samples.asBob []) Samples.fresh)).
Proof.
  assert (H : Denied Samples.deps (Samples.asBob []) 403).
  { apply (FeatureNotGranted _ _ (mkClaims "bob")); reflexivity. }
  split; [exact H |].
  exact (submit_denied_no_side_effects _ _ _ Samples.fresh H).
Defined.

(** ** Serialisation *)

Lemma Json_nested_ind (P : Json -> Prop) :
  P JsonNull ->
  (forall b, P (JsonBool b)) ->
  (forall z, P (JsonNum z)) ->
  (forall s, P (JsonStr s)) ->
  (forall js, Forall P js -> P (JsonArr js)) ->
  (forall members, Forall (fun e => P (snd e)) members -> P (JsonObj members)) ->
  forall j, P j.
Proof.
  intros Hnull Hbool Hnum Hstr Harr Hobj. fix IH 1.
  intros [ | b | z | s | js | members].
  - exact Hnull.
  - exact (Hbool b).
  - exact (Hnum z).
  - exact (Hstr s).
  - apply Harr. induction js as [ | j js IHjs]; constructor.
    + exact (IH j).
    + exact IHjs.
  - apply Hobj. induction members as [ | e members IHm]; constructor.
    + exact (IH (snd e)).
    + exact IHm.
Qed.

Lemma JsValue_nested_ind (P : JsValue -> Prop) :
  P JUndefined ->
  P JNull ->
  (forall b, P (JBool b)) ->
  (forall n, P (JNum n)) ->
  (forall s, P (JStr s)) ->
  (forall iso, P (JDate iso)) ->
  (forall vs, Forall P vs -> P (JArr vs)) ->
  (forall props, Forall (fun e => P (snd e)) props -> P (JObj props)) ->
  forall v, P v.
Proof.
  intros Hu Hnull Hbool Hnum Hstr Hdate Harr Hobj. fix IH 1.
  intros [ | | b | n | s | iso | vs | props].
  - exact Hu.
  - exact Hnull.
  - exact (Hbool b).
  - exact (Hnum n).
  - exact (Hstr s).
  - exact (Hdate iso).
  - apply Harr. induction vs as [ | v vs IHvs]; constructor.
    + exact (IH v).
    + exact IHvs.
  - apply Hobj. induction props as [ | e props IHp]; constructor.
    + exact (IH (snd e)).
    + exact IHp.
Qed.

(** A parsed document serialises to itself. *)
Lemma stringify_parse j : JSON_stringify (JSON_parse j) = Some j.
Proof.
  induction j as [ | b | z | s | js IH | members IH] using Json_nested_ind;
    simpl; try reflexivity.
  - do 2 f_equal. rewrite map_map.
    induction IH as [ | j js Hj _ IHjs]; simpl; [done |].
    by rewrite Hj, IHjs.
  - do 2 f_equal.
    induction IH as [ | [k j] members Hj _ IHm]; simpl in *; [done |].
    rewrite Hj. simpl. f_equal. exact IHm.
Qed.

(** A value that is a JSON document already survives the round trip. *)
Lemma parse_stringify_clean v :
  jsonClean v = true -> JSON_parse <$> JSON_stringify v = Some v.
Proof.
  induction v as [ | | b | n | s | iso | vs IH | props IH]
    using JsValue_nested_ind; simpl; try done.
  - by destruct n.
  - intros Hclean. do 2 f_equal. rewrite map_map.
    induction IH as [ | v vs Hv _ IHvs]; simpl in *; [done |].
    apply andb_true_iff in Hclean as [Hc Hcs].
    specialize (Hv Hc). destruct (JSON_stringify v); simplify_eq/=.
    by rewrite IHvs.
  - intros Hclean. do 2 f_equal.
    induction IH as [ | [k v] props Hv _ IHp]; simpl in *; [done |].
    apply andb_true_iff in Hclean as [Hc Hcs].
    specialize (Hv Hc). destruct (JSON_stringify v); simplify_eq/=.
    f_equal. exact (IHp Hcs).
Qed.

Lemma parse_truthy_obj members : truthy (JSON_parse (JsonObj members)) = true.
Proof. reflexivity. Qed.

(** ** Records in the keyed store *)

Lemma stringify_digest d :
  JSON_stringify (digestToJs d) = JSON_stringify (digestAsRead d).
Proof. destruct d as [? ? [iso | ] ? ? ? ? ? ? ? ?]; reflexivity. Qed.

Lemma stringify_digest_Some d :
  exists members,
    JSON_stringify (digestToJs d)
    = Some (JsonObj (("id", JsonStr (id d))
                       :: ("jobState", JsonStr (taskStateValue (jobState d)))
                       :: members)).
Proof. eexists. reflexivity. Qed.

Lemma forallb_optional {A} (P : JsValue -> bool) k (f : A -> JsValue) o :
  (forall a, o = Some a -> P (f a) = true) ->
  forallb (fun e : string * JsValue => P (snd e)) (optional k f o) = true.
Proof.
  intros H. destruct o as [a | ]; simpl; [| done].
  by rewrite (H a eq_refl).
Qed.

Lemma jsonClean_chapters cs :
  forallb (fun c => finite (wordCount c)) cs = true ->
  forallb jsonClean (map chapterToJs cs) = true.
Proof.
  induction cs as [ | c cs IH]; simpl; [done |].
  intros [Hc Hcs]%andb_true_iff. rewrite (IH Hcs), andb_true_r.
  destruct c as [? ? ? n [t | ]]; simpl in *; by destruct n.
Qed.

Lemma jsonClean_strings (us : list string) :
  forallb jsonClean (map JStr us) = true.
Proof. induction us; simpl; auto. Qed.

Lemma jsonClean_digestAsRead d :
  plainData d = true -> jsonClean (digestAsRead d) = true.
Proof.
  intros [Hchapters Hspeech]%andb_true_iff.
  unfold digestAsRead, digestPropsWith. simpl.
  repeat rewrite forallb_app.
  repeat (apply andb_true_iff; split);
    try (apply forallb_optional; intros a Ha; simpl; try done).
  - rewrite Ha in Hchapters. by apply jsonClean_chapters.
  - apply jsonClean_strings.
  - by rewrite Ha in Hspeech.
Qed.

(** What a reader gets back for a record of plain data: the record as its
    serialisation renders it. *)
Lemma parse_stringify_digest d :
  plainData d = true ->
  JSON_parse <$> JSON_stringify (digestToJs d) = Some (digestAsRead d).
Proof.
  intros H. rewrite stringify_digest.
  by apply parse_stringify_clean, jsonClean_digestAsRead.
Qed.

Lemma digestAsRead_no_date d :
  createdAt d = None -> digestAsRead d = digestToJs d.
Proof. intros H. unfold digestAsRead, digestToJs, digestPropsWith. by rewrite H. Qed.

Lemma taskStateValue_Running s :
  String.eqb (taskStateValue s) (taskStateValue Running)
  = bool_decide (s = Running).
Proof. by destruct s. Qed.

Lemma getDigest_current userId w :
  getDigest userId w = (Returns (currentDigest userId w), w).
Proof.
  unfold getDigest, currentDigest, stored.
  destruct (redisClient w) as [store | ]; simpl; [| done].
  by destruct (redisGet _ _ store).
Qed.

Ltac authorized H :=
  destruct H as (?Hclaims & ?Huser & ?Hfeature);
  rewrite (resolveUserId_claims _ _ _ _ Hclaims); simpl uid;
  unfold tryCatch, mbind, M_bind, bind, await;
  rewrite Huser, ?Hfeature; change (negb true) with false; cbv beta iota.

(** [GET /v1] for a caller who passes the checks. *)
Lemma getDigestRoute_authorized deps req userId w :
  Authorized deps req userId ->
  getDigestRoute deps req w =
    let digest := currentDigest userId w in
    if negb (truthy digest) then
      (sendStatus 404, addLog (DigestNotFound userId) w)
    else if strictEqStr (member digest "jobState") (taskStateValue Running)
    then (send 200 (JObj [("jobId", member digest "id");
                          ("jobState", member digest "jobState")]), w)
    else (send 200 digest, w).
Proof.
  intros H. unfold getDigestRoute. authorized H.
  rewrite getDigest_current. cbv zeta.
  destruct (truthy (currentDigest userId w)); simpl; [| done].
  by destruct (strictEqStr _ _).
Qed.

(** [POST /v1] for a caller who passes the checks. *)
Lemma createDigest_authorized deps req userId w :
  Authorized deps req userId ->
  createDigest deps req w =
    if strictEqStr (optMember (currentDigest userId w) "jobState")
                   (taskStateValue Running)
    then (sendStatus 202, addLog (JobIsRunning userId) w)
    else
      let call :=
        mkCall (spread (body req)
                       [("id", JStr (uuid deps (uuidCount w)));
                        ("userId", JStr userId)])
               (get_prop "schedule" (body req)) in
      let after store :=
        mkWorld store (now w) (S (uuidCount w)) (enqueueCalls w ++ [call])
                (captured w) (logged w) in
      match enqueueCollaborator deps call (now w) (redisClient w) with
      | (Returns result, store) => (send 201 result, after store)
      | (Throws, store) => (sendStatus 500, addLog EnqueueError (after store))
      end.
Proof.
  intros H. unfold createDigest. authorized H.
  rewrite getDigest_current.
  destruct (strictEqStr _ _); simpl; [done |].
  unfold enqueueCreateDigest. simpl.
  by destruct (enqueueCollaborator _ _ _ _) as [[result | ] store].
Qed.

Lemma stored_after_write userId d w store seconds :
  redisClient w = Some store ->
  stored userId (elapse seconds (snd (writeDigest userId d w)))
  = if seconds <? oneWeek then JSON_stringify (digestToJs d) else None.
Proof.
  intros Hclient. unfold stored, writeDigest. rewrite Hclient. simpl.
  unfold redisGet, redisSet. rewrite lookup_insert_eq. simpl.
  destruct (Z.ltb_spec seconds oneWeek),
           (Z.ltb_spec (now w + seconds) (now w + oneWeek)); done || lia.
Qed.

Lemma send_parsed code j : send code (JSON_parse j) = mkResponse code (Sent (Some j)).
Proof. unfold send. by rewrite stringify_parse. Qed.

(** [GET /v1] when the record of a digest [d] is stored for the caller. *)
Lemma getDigestRoute_stored deps req userId d w :
  Authorized deps req userId ->
  stored userId w = JSON_stringify (digestToJs d) ->
  getDigestRoute deps req w =
    (if bool_decide (jobState d = Running) then
       mkResponse 200
         (Sent (Some (JsonObj [("jobId", JsonStr (id d));
                               ("jobState", JsonStr (taskStateValue Running))])))
     else mkResponse 200 (Sent (JSON_stringify (digestToJs d))),
     w).
Proof.
  intros Hauth Hstored. rewrite (getDigestRoute_authorized _ _ _ _ Hauth).
  unfold currentDigest. rewrite Hstored.
  destruct (stringify_digest_Some d) as [members ->].
  cbv zeta. rewrite parse_truthy_obj. simpl negb. cbv iota.
  rewrite send_parsed.
  change (strictEqStr _ _)
    with (String.eqb (taskStateValue (jobState d)) (taskStateValue Running)).
  rewrite taskStateValue_Running.
  case_bool_decide as Hstate; [| done].
  rewrite Hstate. reflexivity.
Qed.

(** X6. The status route only reads: whatever the request, nothing but the
    log can differ afterwards. *)
Lemma getDigestRoute_quiet deps req w :
  quiet w (snd (getDigestRoute deps req w)).
Proof.
  unfold getDigestRoute, resolveUserId, tryCatch, mbind, M_bind, bind, await.
  destruct (getClaimsByToken deps (token req)) as [[claims | ] | ];
    simpl; auto.
  destruct (findActiveUser deps (uid claims)) as [[ | ] | ]; simpl; auto.
  destruct (findGrantedFeatureByName deps AIDigest (uid claims))
    as [[ | ] | ]; simpl; auto.
  rewrite getDigest_current.
  destruct (truthy (currentDigest (uid claims) w)); simpl; auto.
  destruct (strictEqStr _ _); simpl; auto.
Qed.

(** C3. For a caller whose stored job is Running, the status route answers
    with exactly the two fields [jobId] and [jobState] and nothing of the
    result; for a stored job in any other state it answers with the full
    stored record; in both cases the route leaves the world, the keyed
    store included, as it was. *)
Theorem status_running_is_partial deps req userId d w :
  Authorized deps req userId ->
  stored userId w = JSON_stringify (digestToJs d) ->
  (jobState d = Running ->
   fst (getDigestRoute deps req w)
   = mkResponse 200
       (Sent (Some (JsonObj [("jobId", JsonStr (id d));
                             ("jobState", JsonStr (taskStateValue Running))]))))
  /\ (jobState d <> Running ->
      fst (getDigestRoute deps req w)
      = mkResponse 200 (Sent (stored userId w)))
  /\ snd (getDigestRoute deps req w) = w.
Proof.
  intros Hauth Hstored.
  rewrite (getDigestRoute_stored _ _ _ _ _ Hauth Hstored), Hstored. simpl.
  repeat split.
  - intros Hstate. by rewrite bool_decide_eq_true_2.
  - intros Hstate. by rewrite bool_decide_eq_false_2.
Qed.

Lemma status_running_is_partial_witness :
  fst (getDigestRoute Samples.deps (Samples.asAlice []) (Samples.holding Running))
  = mkResponse 200
      (Sent (Some (JsonObj [("jobId", JsonStr "J");
                            ("jobState", JsonStr "RUNNING")])))
  /\ snd (getDigestRoute Samples.deps (Samples.asAlice [])
                         (Samples.holding Running))
     = Samples.holding Running.
Proof.
  assert (Hauth : Authorized Samples.deps (Samples.asAlice []) "alice")
    by (by repeat split).
  assert (Hstored : stored "alice" (Samples.holding Running)
                    = JSON_stringify (digestToJs (Samples.job "J" Running)))
    by (by vm_compute).
  destruct (status_running_is_partial _ _ _ _ _ Hauth Hstored)
    as (Hrunning & _ & Hsame).
  split; [exact (Hrunning eq_refl) | exact Hsame].
Defined.

(** What is read back of a record of plain data that [writeDigest] has
    stored, its date being a valid one: within the week and with no write
    in between, the record as
    its serialisation renders it, every field as written, except that
    [createdAt], written as a [Date], comes back as the ISO string of that
    date. With no [createdAt] the round trip is the identity; and the status
    route answers a finished job with the very document that was written. *)
Theorem write_then_read_digest deps req userId d w store seconds :
  Authorized deps req userId ->
  redisClient w = Some store ->
  jobState d = Succeeded ->
  plainData d = true ->
  0 <= seconds < oneWeek ->
  fst (getDigest userId (elapse seconds (snd (writeDigest userId d w))))
  = Returns (digestAsRead d)
  /\ (createdAt d = None -> digestAsRead d = digestToJs d)
  /\ (forall iso, createdAt d = Some iso ->
                  member (digestAsRead d) "createdAt" = JStr iso)
  /\ fst (getDigestRoute deps req
                         (elapse seconds (snd (writeDigest userId d w))))
     = mkResponse 200 (Sent (JSON_stringify (digestToJs d))).
Proof.
  intros Hauth Hclient Hstate Hplain Hseconds.
  assert (Hstored :
            stored userId (elapse seconds (snd (writeDigest userId d w)))
            = JSON_stringify (digestToJs d)).
  { rewrite (stored_after_write _ _ _ _ _ Hclient).
    destruct (Z.ltb_spec seconds oneWeek); [done | lia]. }
  repeat split.
  - pose proof (parse_stringify_digest d Hplain) as Hread.
    destruct (stringify_digest_Some d) as [members Htext].
    rewrite getDigest_current. unfold currentDigest. rewrite Hstored, Htext.
    rewrite Htext in Hread. cbn [fmap option_fmap option_map] in Hread.
    apply (inj Some) in Hread. cbn [fst]. by rewrite Hread.
  - apply digestAsRead_no_date.
  - intros iso Hdate. unfold digestAsRead, digestPropsWith.
    rewrite Hdate. reflexivity.
  - rewrite (getDigestRoute_stored _ _ _ _ _ Hauth Hstored).
    rewrite bool_decide_eq_false_2; [done |]. by rewrite Hstate.
Qed.

Lemma write_then_read_digest_witness :
  fst (getDigest "alice" (elapse 3600 (snd (writeDigest "alice" Samples.dated
                                                        Samples.fresh))))
  = Returns (digestAsRead Samples.dated)
  /\ fst (getDigestRoute Samples.deps (Samples.asAlice [])
            (elapse 3600 (snd (writeDigest "alice" Samples.dated Samples.fresh))))
     = mkResponse 200 (Sent (JSON_stringify (digestToJs Samples.dated))).
Proof.
  assert (Hauth : Authorized Samples.deps (Samples.asAlice []) "alice")
    by (by repeat split).
  assert (Hseconds : 0 <= 3600 < oneWeek) by (by vm_compute).
  destruct (write_then_read_digest Samples.deps (Samples.asAlice []) "alice"
              Samples.dated Samples.fresh ∅ 3600
              Hauth eq_refl eq_refl eq_refl Hseconds)
    as (Hread & _ & _ & Hroute).
  split; [exact Hread | exact Hroute].
Defined.

(** C4 fails on the code. A finished digest written with its creation date,
    a [Date] as the interface [Digest] declares it, is not read back equal
    to what was written: under [createdAt] the reader finds a string, while
    [getDigest] hands its result out as a [Digest]. *)
Lemma read_back_createdAt_is_string :
  fst (getDigest "alice" (snd (writeDigest "alice" Samples.dated Samples.fresh)))
  <> Returns (digestToJs Samples.dated)
  /\ member (digestToJs Samples.dated) "createdAt"
     = JDate "2024-05-01T08:00:00.000Z"
  /\ fst (getDigest "alice" (snd (writeDigest "alice" Samples.dated Samples.fresh)))
     = Returns (JObj [("id", JStr "J");
                      ("jobState", JStr "SUCCEEDED");
                      ("createdAt", JStr "2024-05-01T08:00:00.000Z");
                      ("title", JStr "Weekly Digest")]).
Proof.
  assert (Hread :
            fst (getDigest "alice"
                   (snd (writeDigest "alice" Samples.dated Samples.fresh)))
            = Returns (JObj [("id", JStr "J");
                             ("jobState", JStr "SUCCEEDED");
                             ("createdAt", JStr "2024-05-01T08:00:00.000Z");
                             ("title", JStr "Weekly Digest")]))
    by (by vm_compute).
  split; [| split; [reflexivity | exact Hread]].
  rewrite Hread. vm_compute. discriminate.
Qed.

(** C9. Whatever the record and its state, [writeDigest] sets the key to
    expire exactly 604800 seconds (7 days) after the write; once that time
    has passed with no further write, the status route answers 404. *)
Theorem digest_expires_after_one_week deps req userId d w store seconds :
  Authorized deps req userId ->
  redisClient w = Some store ->
  oneWeek <= seconds ->
  oneWeek = 604800
  /\ (exists text,
        redisClient (snd (writeDigest userId d w))
        = Some (<[digestKey userId := mkEntry text (now w + 604800)]> store))
  /\ fst (getDigestRoute deps req
                         (elapse seconds (snd (writeDigest userId d w))))
     = sendStatus 404.
Proof.
  intros Hauth Hclient Hseconds. repeat split.
  - eexists. unfold writeDigest. rewrite Hclient. reflexivity.
  - rewrite (getDigestRoute_authorized _ _ _ _ Hauth).
    unfold currentDigest. rewrite (stored_after_write _ _ _ _ _ Hclient).
    destruct (Z.ltb_spec seconds oneWeek); [lia | reflexivity].
Qed.

Lemma digest_expires_after_one_week_witness :
  oneWeek = 604800
  /\ (exists text,
        redisClient (snd (writeDigest "alice" (Samples.job "J" Running)
                                      Samples.fresh))
        = Some (<[digestKey "alice" := mkEntry text (now Samples.fresh + 604800)]> ∅))
  /\ fst (getDigestRoute Samples.deps (Samples.asAlice [])
            (elapse 604800 (snd (writeDigest "alice" (Samples.job "J" Running)
                                             Samples.fresh))))
     = sendStatus 404.
Proof.
  assert (Hauth : Authorized Samples.deps (Samples.asAlice []) "alice")
    by (by repeat split).
  assert (Hseconds : oneWeek <= 604800) by (by vm_compute).
  exact (digest_expires_after_one_week Samples.deps (Samples.asAlice [])
           "alice" (Samples.job "J" Running) Samples.fresh ∅ 604800
           Hauth eq_refl Hseconds).
Defined.

(** ** Creating a digest *)

Lemma running_test_stored userId d w :
  stored userId w = JSON_stringify (digestToJs d) ->
  strictEqStr (optMember (currentDigest userId w) "jobState")
              (taskStateValue Running)
  = bool_decide (jobState d = Running).
Proof.
  intros Hstored. unfold currentDigest. rewrite Hstored.
  destruct (stringify_digest_Some d) as [members ->].
  change (strictEqStr _ _)
    with (String.eqb (taskStateValue (jobState d)) (taskStateValue Running)).
  apply taskStateValue_Running.
Qed.

Lemma get_prop_set_prop_ne k k' v o :
  k <> k' -> get_prop k (set_prop k' v o) = get_prop k o.
Proof.
  intros Hne. induction o as [ | [k0 v0] o IH]; simpl.
  - destruct (String.eqb_spec k' k); congruence.
  - destruct (String.eqb_spec k0 k'), (String.eqb_spec k0 k);
      simpl; try rewrite IH; subst;
      repeat match goal with
             | |- context [String.eqb ?a ?b] => destruct (String.eqb_spec a b)
             end; congruence.
Qed.

(** A key the spread source does not have keeps the value it had. *)
Lemma get_prop_spread k src acc :
  has_prop k src = false -> get_prop k (spread src acc) = get_prop k acc.
Proof.
  unfold spread, has_prop. revert acc.
  induction src as [ | [k0 v0] src IH]; simpl; intros acc H; [done |].
  apply orb_false_iff in H as [Hk Hsrc].
  rewrite (IH _ Hsrc). apply get_prop_set_prop_ne.
  destruct (String.eqb_spec k0 k); congruence.
Qed.

(** C1, as the code has it. For a caller whose stored job is Running, the
    create route answers the bare status 202 — no record and no job id in
    the body —, creates no job record, draws no identifier and does not
    invoke the enqueue collaborator. A stored job in any other state,
    Pending included, does not hold the request back: a new identifier is
    drawn and the enqueue collaborator is invoked with the job data
    [{ id: <drawn id>, userId, ...body }], under the drawn identifier
    whenever the body has no [id] of its own. *)
Theorem submit_while_running_is_refused deps req userId d w :
  Authorized deps req userId ->
  stored userId w = JSON_stringify (digestToJs d) ->
  (jobState d = Running ->
   fst (createDigest deps req w) = sendStatus 202
   /\ quiet w (snd (createDigest deps req w)))
  /\ (jobState d <> Running ->
      enqueueCalls (snd (createDigest deps req w))
      = enqueueCalls w
          ++ [mkCall (spread (body req)
                             [("id", JStr (uuid deps (uuidCount w)));
                              ("userId", JStr userId)])
                     (get_prop "schedule" (body req))]
      /\ uuidCount (snd (createDigest deps req w)) = S (uuidCount w)
      /\ (has_prop "id" (body req) = false ->
          get_prop "id" (spread (body req)
                                [("id", JStr (uuid deps (uuidCount w)));
                                 ("userId", JStr userId)])
          = JStr (uuid deps (uuidCount w)))).
Proof.
  intros Hauth Hstored.
  rewrite (createDigest_authorized _ _ _ _ Hauth).
  rewrite (running_test_stored _ _ _ Hstored).
  split; intros Hstate.
  - rewrite bool_decide_eq_true_2 by done. simpl. auto.
  - rewrite bool_decide_eq_false_2 by done. cbv zeta.
    split; [| split].
    + by destruct (enqueueCollaborator _ _ _ _) as [[result | ] store].
    + by destruct (enqueueCollaborator _ _ _ _) as [[result | ] store].
    + intros Hid. by rewrite get_prop_spread.
Qed.

Lemma submit_while_running_is_refused_witness :
  fst (createDigest Samples.deps (Samples.asAlice []) (Samples.holding Running))
  = sendStatus 202
  /\ quiet (Samples.holding Running)
           (snd (createDigest Samples.deps (Samples.asAlice [])
                              (Samples.holding Running))).
Proof.
  assert (Hauth : Authorized Samples.deps (Samples.asAlice []) "alice")
    by (by repeat split).
  assert (Hstored : stored "alice" (Samples.holding Running)
                    = JSON_stringify (digestToJs (Samples.job "J" Running)))
    by (by vm_compute).
  exact (proj1 (submit_while_running_is_refused _ _ _ _ _ Hauth Hstored)
               eq_refl).
Defined.

(** C1, as stated, fails. With a Pending job stored for the caller the
    create route answers 201 and invokes the enqueue collaborator, under an
    identifier that is not the stored job's; and with a Running job the
    202 it answers carries no job id. *)
Lemma submit_with_pending_job_is_enqueued :
  stored "alice" (Samples.holding Pending)
  = JSON_stringify (digestToJs (Samples.job "J" Pending))
  /\ status (fst (createDigest Samples.deps (Samples.asAlice [])
                               (Samples.holding Pending))) = 201
  /\ enqueueCalls (snd (createDigest Samples.deps (Samples.asAlice [])
                                     (Samples.holding Pending)))
     = [mkCall [("id", JStr "job-0"); ("userId", JStr "alice")] JUndefined]
  /\ payload (fst (createDigest Samples.deps (Samples.asAlice [])
                                (Samples.holding Running))) = StatusText.
Proof. by vm_compute. Qed.


Lemma running_test_no_job userId w :
  NoRunningJob userId w ->
  strictEqStr (optMember (currentDigest userId w) "jobState")
              (taskStateValue Running) = false.
Proof.
  intros [Hnone | (d & Hstored & Hstate)].
  - unfold currentDigest. by rewrite Hnone.
  - rewrite (running_test_stored _ _ _ Hstored).
    by apply bool_decide_eq_false_2.
Qed.






(** ** Feedback *)

Lemma isFeedback_required data :
  isFeedback data = true
  <-> forall k, In k requiredRatings -> has_prop k data = true.
Proof.
  unfold isFeedback, requiredRatings. rewrite !andb_true_iff. split.
  - intros ((((H1 & H2) & H3) & H4) & H5) k Hk. simpl in Hk.
    by destruct Hk as [<- | [<- | [<- | [<- | [<- | []]]]]].
  - intros H. repeat split; apply H; simpl; auto 10.
Qed.

(** [POST /v1/feedback] for a caller who passes the checks. *)
Lemma sendFeedback_authorized deps req userId w :
  Authorized deps req userId ->
  sendFeedback deps req w =
    if negb (isFeedback (body req)) then
      (sendStatus 400, addLog InvalidFeedbackFormat w)
    else
      (sendStatus 200,
       mkWorld (redisClient w) (now w) (uuidCount w) (enqueueCalls w)
         (captured w
            ++ [mkEvent userId "digest_feedback"
                  (set_prop "env" (JStr (apiEnv deps))
                     (spread (delete_prop "comment" (body req)) []))])
         (logged w ++ [SendingFeedback (JSON_stringify (JObj (body req)))])).
Proof.
  intros H. unfold sendFeedback. authorized H.
  by destruct (isFeedback (body req)).
Qed.

(** Nothing is captured unless the body is a feedback. *)
Lemma sendFeedback_invalid_captures_nothing deps req w :
  isFeedback (body req) = false ->
  captured (snd (sendFeedback deps req w)) = captured w.
Proof.
  intros Hinvalid.
  unfold sendFeedback, resolveUserId, tryCatch, mbind, M_bind, bind, await.
  destruct (getClaimsByToken deps (token req)) as [[claims | ] | ];
    simpl; try done.
  destruct (findActiveUser deps (uid claims)) as [[ | ] | ]; simpl; try done.
  destruct (findGrantedFeatureByName deps AIDigest (uid claims))
    as [[ | ] | ]; simpl; try done.
  by rewrite Hinvalid.
Qed.

(** C7. A feedback request whose body lacks one of the five rating fields
    never reaches the analytics sink and, for a caller who passes the
    checks, is answered 400. Presence is all that is tested: a body that
    has the five keys, whatever their values, is answered 200. *)
Theorem feedback_without_rating_is_invalid deps req w :
  (forall k, In k requiredRatings -> has_prop k (body req) = false ->
             captured (snd (sendFeedback deps req w)) = captured w
             /\ forall userId, Authorized deps req userId ->
                               fst (sendFeedback deps req w) = sendStatus 400)
  /\ (forall userId,
        Authorized deps req userId ->
        (forall k, In k requiredRatings -> has_prop k (body req) = true) ->
        fst (sendFeedback deps req w) = sendStatus 200).
Proof.
  split.
  - intros k Hk Hmissing.
    assert (Hinvalid : isFeedback (body req) = false).
    { apply not_true_is_false. intros Hvalid.
      apply isFeedback_required with (k := k) in Hvalid; [| done]. congruence. }
    split; [by apply sendFeedback_invalid_captures_nothing |].
    intros userId Hauth.
    rewrite (sendFeedback_authorized _ _ _ _ Hauth). by rewrite Hinvalid.
  - intros userId Hauth Hall.
    rewrite (sendFeedback_authorized _ _ _ _ Hauth).
    apply isFeedback_required in Hall. by rewrite Hall.
Qed.

Lemma feedback_without_rating_is_invalid_witness :
  (captured (snd (sendFeedback Samples.deps
                    (Samples.asAlice (delete_prop "voiceRating" Samples.ratings))
                    Samples.fresh)) = []
   /\ fst (sendFeedback Samples.deps
             (Samples.asAlice (delete_prop "voiceRating" Samples.ratings))
             Samples.fresh) = sendStatus 400)
  /\ fst (sendFeedback Samples.deps (Samples.asAlice Samples.ratings)
                       Samples.fresh) = sendStatus 200.
Proof.
  assert (Hauth : forall body, Authorized Samples.deps (Samples.asAlice body) "alice")
    by (by repeat split).
  assert (Hk : In "voiceRating" requiredRatings) by (simpl; auto).
  split.
  - destruct (proj1 (feedback_without_rating_is_invalid Samples.deps
                       (Samples.asAlice (delete_prop "voiceRating" Samples.ratings))
                       Samples.fresh) "voiceRating" Hk eq_refl)
      as [Hcaptured Hstatus].
    split; [exact Hcaptured | exact (Hstatus "alice" (Hauth _))].
  - apply (proj2 (feedback_without_rating_is_invalid Samples.deps
                    (Samples.asAlice Samples.ratings) Samples.fresh)
                 "alice" (Hauth _)).
    intros k Hin. simpl in Hin.
    by destruct Hin as [<- | [<- | [<- | [<- | [<- | []]]]]].
Defined.

Lemma has_prop_set_prop k k' v o :
  has_prop k (set_prop k' v o) = has_prop k o || String.eqb k' k.
Proof.
  unfold has_prop. induction o as [ | [k0 v0] o IH]; simpl.
  - by rewrite orb_false_r.
  - destruct (String.eqb_spec k0 k') as [-> | Hne]; simpl.
    + destruct (String.eqb k' k); simpl; [done |]. by rewrite orb_false_r.
    + rewrite IH. by destruct (String.eqb k0 k).
Qed.

Lemma has_prop_spread k src acc :
  has_prop k (spread src acc) = has_prop k acc || has_prop k src.
Proof.
  unfold spread. revert acc.
  induction src as [ | [k0 v0] src IH]; simpl; intros acc.
  - by rewrite orb_false_r.
  - rewrite IH, has_prop_set_prop. by rewrite orb_assoc.
Qed.

Lemma has_prop_delete_prop k o : has_prop k (delete_prop k o) = false.
Proof.
  unfold has_prop, delete_prop. induction o as [ | [k0 v0] o IH]; [done |].
  simpl. destruct (String.eqb_spec k0 k) as [-> | Hne]; simpl; [done |].
  destruct (String.eqb_spec k0 k); [done |]. exact IH.
Qed.

(** Adding a comment to a payload, or changing the one it has, gives a
    payload that differs in the comment only. *)
Lemma sameButComment_set_comment v p :
  sameButComment (set_prop "comment" v p) p.
Proof.
  unfold sameButComment. induction p as [ | [k0 v0] p IH]; [done |].
  simpl. destruct (String.eqb_spec k0 "comment") as [-> | Hne]; simpl.
  - done.
  - destruct (String.eqb_spec k0 "comment"); [done |]. simpl. by rewrite IH.
Qed.

(** [POST /v1/feedback], the analytics call returning or throwing, for a
    caller who passes the checks. *)
Lemma sendFeedbackVia_authorized sink deps req userId w :
  Authorized deps req userId ->
  FeedbackSink.sendFeedbackVia sink deps req w =
    if negb (isFeedback (body req)) then
      (sendStatus 400, addLog InvalidFeedbackFormat w)
    else
      let e :=
        mkEvent userId "digest_feedback"
          (set_prop "env" (JStr (apiEnv deps))
             (spread (delete_prop "comment" (body req)) [])) in
      let handed :=
        mkWorld (redisClient w) (now w) (uuidCount w) (enqueueCalls w)
          (captured w ++ [e])
          (logged w ++ [SendingFeedback (JSON_stringify (JObj (body req)))]) in
      match sink e with
      | Returns _ => (sendStatus 200, handed)
      | Throws => (sendStatus 500, addLog SaveFeedbackError handed)
      end.
Proof.
  intros H. unfold FeedbackSink.sendFeedbackVia. authorized H.
  destruct (isFeedback (body req)); simpl; [| done].
  unfold FeedbackSink.captureVia. simpl. by destruct (sink _) as [[] | ].
Qed.

(** With an analytics client whose call returns, the route is
    [sendFeedback]. *)
Lemma sendFeedbackVia_returning deps req w :
  FeedbackSink.sendFeedbackVia (fun _ => Returns tt) deps req w
  = sendFeedback deps req w.
Proof.
  unfold FeedbackSink.sendFeedbackVia, sendFeedback, resolveUserId, tryCatch,
    mbind, M_bind, bind, await.
  by destruct (getClaimsByToken deps (token req)) as [[claims | ] | ].
Qed.

(** C8, as the code has it. For a feedback that passes the checks and the
    validation, the event handed to the analytics client carries the user
    id and the event name and has no [comment] property; two valid payloads
    of the same user that differ only in their comment hand over the same
    event and get the same answer. The answer depends on the analytics
    call alone, no acknowledgement is awaited: 200 when the call returns,
    and 500 when the call throws, as it stands inside the [try] block. *)
Theorem feedback_comment_is_not_forwarded sink deps req1 req2 userId w :
  Authorized deps req1 userId ->
  Authorized deps req2 userId ->
  isFeedback (body req1) = true ->
  isFeedback (body req2) = true ->
  sameButComment (body req1) (body req2) ->
  (exists e,
      captured (snd (FeedbackSink.sendFeedbackVia sink deps req1 w))
      = captured w ++ [e]
      /\ distinctId e = userId
      /\ event e = "digest_feedback"
      /\ has_prop "comment" (properties e) = false
      /\ fst (FeedbackSink.sendFeedbackVia sink deps req1 w)
         = match sink e with
           | Returns _ => sendStatus 200
           | Throws => sendStatus 500
           end)
  /\ captured (snd (FeedbackSink.sendFeedbackVia sink deps req1 w))
     = captured (snd (FeedbackSink.sendFeedbackVia sink deps req2 w))
  /\ fst (FeedbackSink.sendFeedbackVia sink deps req1 w)
     = fst (FeedbackSink.sendFeedbackVia sink deps req2 w).
Proof.
  intros Hauth1 Hauth2 Hvalid1 Hvalid2 Hsame.
  rewrite (sendFeedbackVia_authorized _ _ _ _ _ Hauth1),
          (sendFeedbackVia_authorized _ _ _ _ _ Hauth2).
  rewrite Hvalid1, Hvalid2. cbn [negb]. cbv zeta.
  unfold sameButComment in Hsame. unfold delete_prop. rewrite Hsame.
  fold (delete_prop "comment" (body req2)).
  set (e := mkEvent _ _ _).
  split; [| split].
  - exists e. destruct (sink e) as [[] | ]; simpl; repeat split;
      subst e; simpl;
      by rewrite has_prop_set_prop, has_prop_spread, has_prop_delete_prop.
  - by destruct (sink e) as [[] | ].
  - by destruct (sink e) as [[] | ].
Qed.

Lemma feedback_comment_is_not_forwarded_witness :
  captured (snd (FeedbackSink.sendFeedbackVia (fun _ => Returns tt) Samples.deps
                   (Samples.asAlice (set_prop "comment" (JStr "too long")
                                              Samples.ratings))
                   Samples.fresh))
  = captured (snd (FeedbackSink.sendFeedbackVia (fun _ => Returns tt)
                     Samples.deps (Samples.asAlice Samples.ratings)
                     Samples.fresh)).
Proof.
  assert (Hauth : forall body, Authorized Samples.deps (Samples.asAlice body) "alice")
    by (by repeat split).
  exact (proj1 (proj2 (feedback_comment_is_not_forwarded (fun _ => Returns tt)
           Samples.deps
           (Samples.asAlice (set_prop "comment" (JStr "too long") Samples.ratings))
           (Samples.asAlice Samples.ratings) "alice" Samples.fresh
           (Hauth _) (Hauth _) eq_refl eq_refl eq_refl))).
Defined.

(** C8, as stated, fails. When the call to the analytics client throws, a
    valid feedback of a caller who passes the checks is answered 500, not
    200; the event, without the comment, has been handed over. *)
Lemma feedback_is_500_when_capture_throws :
  isFeedback Scenarios.commented = true
  /\ fst (FeedbackSink.sendFeedbackVia FeedbackSink.broken Samples.deps
            (Samples.asAlice Scenarios.commented) Samples.fresh)
     = sendStatus 500
  /\ captured (snd (FeedbackSink.sendFeedbackVia FeedbackSink.broken Samples.deps
                      (Samples.asAlice Scenarios.commented) Samples.fresh))
     = [mkEvent "alice" "digest_feedback" (Samples.ratings ++ [("env", JStr "prod")])].
Proof. by vm_compute. Qed.

(** ** The viewer fetch *)

Section ViewerFetch.
Import ViewerFetcher.

Lemma fetchViewer_reporting features c d :
  fetchViewer (reporting features c) d = fetchViewer c d.
Proof.
  unfold fetchViewer, reporting. simpl.
  by destruct (answer c) as [u | ].
Qed.

(** C10. Whenever [fetchViewer] returns a viewer, that viewer has
    [digestEnabled] set to true and the [Viewer] saved to the local store
    has it true as well, whatever feature list the server reported for the
    account: the outcome is the same under any other feature list. *)
Theorem fetched_viewer_has_digest_enabled c d v :
  fst (fetchViewer c d) = inr v ->
  digestEnabled v = Some true
  /\ (exists viewer,
        savedViewers (snd (fetchViewer c d)) = savedViewers d ++ [viewer]
        /\ viewerUserID viewer = userID v
        /\ viewerDigestEnabled viewer = true)
  /\ (forall features,
        fetchViewer (reporting features c) d = fetchViewer c d).
Proof.
  intros Hfetched. split; [| split].
  - unfold fetchViewer in Hfetched.
    destruct (answer c) as [u | ]; [| done].
    destruct (selfAlive c); [| done].
    unfold persist in Hfetched.
    destruct (saveSucceeds c); [| done].
    simpl in Hfetched. by simplify_eq.
  - unfold fetchViewer in *.
    destruct (answer c) as [u | ]; [| done].
    destruct (selfAlive c); [| done].
    unfold persist in *.
    destruct (saveSucceeds c); [| done].
    simpl in *. simplify_eq.
    destruct (userIdKey d), (userIntercomHash u); simpl; by eexists.
  - intros features. apply fetchViewer_reporting.
Qed.

Lemma fetched_viewer_has_digest_enabled_witness :
  digestEnabled (selection (mkUser "u1" "ann" "Ann" None None
                                   (Some [mkFeature "digest" false])))
  = Some true
  /\ savedViewers (snd (fetchViewer digestOff firstLaunch))
     = [mkViewer "u1" "ann" "Ann" None true].
Proof.
  destruct (fetched_viewer_has_digest_enabled digestOff firstLaunch
              (selection (mkUser "u1" "ann" "Ann" None None
                                 (Some [mkFeature "digest" false])))
              eq_refl)
    as (Henabled & _ & _).
  split; [exact Henabled | reflexivity].
Defined.

End ViewerFetch.

(** ** The usage limit *)

Section UsageLimitFacts.
Import UsageLimit.

Lemma count_createServiceUsage userId l :
  countDailyServiceUsage userId action (createServiceUsage userId action l)
  = countDailyServiceUsage userId action l + 1.
Proof.
  unfold countDailyServiceUsage at 1, createServiceUsage. simpl.
  by rewrite lookup_insert_eq.
Qed.

(** A request under the limit is executed, and counted exactly when its
    response is without errors. *)
Lemma serve_under_limit execute ctx userId l :
  gatedUser ctx = Some userId ->
  countDailyServiceUsage userId action l < MAX_SENT_EMAIL_PER_DAY ->
  fst (serve execute ctx l) = Responded (execute ctx)
  /\ executed (snd (serve execute ctx l)) = executed l ++ [ctx]
  /\ today (snd (serve execute ctx l)) = today l
  /\ countDailyServiceUsage userId action (snd (serve execute ctx l))
     = if withoutErrors (execute ctx)
       then countDailyServiceUsage userId action l + 1
       else countDailyServiceUsage userId action l.
Proof.
  intros Hgated Hunder. unfold serve, requestDidStart, willSendResponse.
  rewrite Hgated.
  destruct (Z.leb_spec MAX_SENT_EMAIL_PER_DAY
              (countDailyServiceUsage userId action l)); [lia |].
  cbv zeta. destruct (withoutErrors (execute ctx)); simpl; repeat split.
  unfold countDailyServiceUsage. simpl. by rewrite lookup_insert_eq.
Qed.

(** A request at the limit is rejected: nothing is executed, nothing is
    counted. *)
Lemma serve_at_limit execute ctx userId l :
  gatedUser ctx = Some userId ->
  MAX_SENT_EMAIL_PER_DAY <= countDailyServiceUsage userId action l ->
  serve execute ctx l = (Rejected, l).
Proof.
  intros Hgated Hover. unfold serve, requestDidStart. rewrite Hgated.
  by destruct (Z.leb_spec MAX_SENT_EMAIL_PER_DAY
                 (countDailyServiceUsage userId action l)); [| lia].
Qed.

(** Completions of one user on one day add up. *)
Lemma serveAll_counts userId requests l :
  Forall (fun r => gatedUser (snd r) = Some userId
                   /\ withoutErrors (fst r (snd r)) = true) requests ->
  countDailyServiceUsage userId action l + Z.of_nat (length requests)
  <= MAX_SENT_EMAIL_PER_DAY ->
  countDailyServiceUsage userId action (snd (serveAll requests l))
  = countDailyServiceUsage userId action l + Z.of_nat (length requests).
Proof.
  intros Hall. revert l.
  induction Hall as [ | [execute ctx] requests [Hgated Hok] _ IH];
    intros l Hroom; simpl in *; [lia |].
  destruct (serve_under_limit execute ctx userId l Hgated ltac:(lia))
    as (_ & _ & _ & Hcount).
  rewrite Hok in Hcount.
  destruct (serve execute ctx l) as [r l1]. simpl in Hcount.
  specialize (IH l1 ltac:(lia)).
  destruct (serveAll requests l1) as [rs l2]. simpl in *. lia.
Qed.

(** The limit, request by request, for requests served one after the
    other: when today's recorded count has reached the limit of 3 the
    request is rejected before it is executed, and so is the request that
    follows 3 recorded completions of the day; under the limit the request
    is executed, and the counter is incremented exactly when the plugin's
    test of the response passes: no error list and no error codes under
    [data.replyToEmail]. *)
Theorem usage_checked_before_recorded_after execute ctx userId l :
  gatedUser ctx = Some userId ->
  MAX_SENT_EMAIL_PER_DAY = 3
  /\ (MAX_SENT_EMAIL_PER_DAY <= countDailyServiceUsage userId action l ->
      serve execute ctx l = (Rejected, l))
  /\ (forall requests,
         countDailyServiceUsage userId action l = 0 ->
         length requests = 3%nat ->
         Forall (fun r => gatedUser (snd r) = Some userId
                          /\ withoutErrors (fst r (snd r)) = true) requests ->
         serve execute ctx (snd (serveAll requests l))
         = (Rejected, snd (serveAll requests l)))
  /\ (countDailyServiceUsage userId action l < MAX_SENT_EMAIL_PER_DAY ->
      fst (serve execute ctx l) = Responded (execute ctx)
      /\ executed (snd (serve execute ctx l)) = executed l ++ [ctx]
      /\ countDailyServiceUsage userId action (snd (serve execute ctx l))
         = if withoutErrors (execute ctx)
           then countDailyServiceUsage userId action l + 1
           else countDailyServiceUsage userId action l)
  /\ (counts (snd (serve execute ctx l)) <> counts l ->
      errors (execute ctx) = None
      /\ truthy (optMember (optMember (data (execute ctx)) "replyToEmail")
                           "errorCodes") = false
      /\ fst (serve execute ctx l) = Responded (execute ctx)).
Proof.
  intros Hgated. split; [reflexivity |]. split; [| split; [| split]].
  - by apply serve_at_limit.
  - intros requests Hzero Hlength Hall.
    apply (serve_at_limit _ _ userId); [done |].
    rewrite (serveAll_counts userId requests l Hall);
      rewrite Hzero, Hlength; by vm_compute.
  - intros Hunder.
    destruct (serve_under_limit execute ctx userId l Hgated Hunder)
      as (Hserved & Hexecuted & _ & Hcount).
    done.
  - unfold serve, requestDidStart, willSendResponse. rewrite Hgated.
    destruct (MAX_SENT_EMAIL_PER_DAY <=? _); [done |].
    cbv zeta. unfold withoutErrors.
    destruct (errors (execute ctx)) as [es | ]; [done |].
    destruct (truthy _); [done |]. simpl. done.
Qed.

Lemma usage_checked_before_recorded_after_witness :
  serve (fun _ => mkGraphQLResponse None JNull)
        (mkContext (Some "mutation { replyToEmail(id: 4) { id } }") (Some "u1"))
        (mkLedger {[ ("u1", "replyToEmail", 19000) := 3 ]} 19000 [])
  = (Rejected, mkLedger {[ ("u1", "replyToEmail", 19000) := 3 ]} 19000 []).
Proof.
  assert (Hlimit :
            MAX_SENT_EMAIL_PER_DAY
            <= countDailyServiceUsage "u1" action
                 (mkLedger {[ ("u1", "replyToEmail", 19000) := 3 ]} 19000 []))
    by (by vm_compute).
  exact (proj1 (proj2 (usage_checked_before_recorded_after
                         (fun _ => mkGraphQLResponse None JNull)
                         (mkContext (Some "mutation { replyToEmail(id: 4) { id } }")
                                    (Some "u1"))
                         "u1"
                         (mkLedger {[ ("u1", "replyToEmail", 19000) := 3 ]}
                                   19000 [])
                         eq_refl))
               Hlimit).
Defined.

End UsageLimitFacts.

(** ** More on the create route *)

(** X1. When a collaborator of the create route fails the answer is 500. A
    failing account or entitlement lookup leaves everything but the log as
    it was; when the enqueue collaborator fails, the identifier has been
    drawn and the collaborator invoked, and no 201 is sent. *)
Theorem create_fails_with_500 deps req userId w :
  getClaimsByToken deps (token req) = Returns (Some (mkClaims userId)) ->
  (findActiveUser deps userId = Throws ->
   createDigest deps req w = (sendStatus 500, addLog EnqueueError w))
  /\ (findActiveUser deps userId = Returns true ->
      findGrantedFeatureByName deps AIDigest userId = Throws ->
      createDigest deps req w = (sendStatus 500, addLog EnqueueError w))
  /\ (findActiveUser deps userId = Returns true ->
      findGrantedFeatureByName deps AIDigest userId = Returns true ->
      NoRunningJob userId w ->
      fst (enqueueCollaborator deps (submission deps req userId w) (now w)
                               (redisClient w)) = Throws ->
      fst (createDigest deps req w) = sendStatus 500
      /\ enqueueCalls (snd (createDigest deps req w))
         = enqueueCalls w ++ [submission deps req userId w]
      /\ uuidCount (snd (createDigest deps req w)) = S (uuidCount w)).
Proof.
  intros Hclaims. split; [| split].
  - intros Huser. unfold createDigest.
    rewrite (resolveUserId_claims _ _ _ _ Hclaims). simpl uid.
    unfold tryCatch, mbind, M_bind, bind, await. by rewrite Huser.
  - intros Huser Hfeature. unfold createDigest.
    rewrite (resolveUserId_claims _ _ _ _ Hclaims). simpl uid.
    unfold tryCatch, mbind, M_bind, bind, await.
    rewrite Huser. change (negb true) with false. cbv beta iota.
    by rewrite Hfeature.
  - intros Huser Hfeature Hjob Hthrows.
    rewrite (createDigest_authorized deps req userId w) by done.
    rewrite (running_test_no_job _ _ Hjob). cbv zeta.
    fold (submission deps req userId w).
    destruct (enqueueCollaborator _ _ _ _) as [[result | ] store];
      simpl in *; [done |]. done.
Qed.

Lemma create_fails_with_500_witness :
  createDigest Scenarios.accountsDown (Samples.asAlice []) Samples.fresh
  = (sendStatus 500, addLog EnqueueError Samples.fresh)
  /\ fst (createDigest Scenarios.queueDown (Samples.asAlice []) Samples.fresh)
     = sendStatus 500.
Proof.
  split.
  - exact (proj1 (create_fails_with_500 Scenarios.accountsDown
                    (Samples.asAlice []) "alice" Samples.fresh eq_refl)
                 eq_refl).
  - assert (Hjob : NoRunningJob "alice" Samples.fresh) by (by left).
    exact (proj1 (proj2 (proj2 (create_fails_with_500 Scenarios.queueDown
                                  (Samples.asAlice []) "alice" Samples.fresh
                                  eq_refl))
                        eq_refl eq_refl Hjob eq_refl)).
Defined.



Lemma get_prop_set_prop_eq k v o : get_prop k (set_prop k v o) = v.
Proof.
  induction o as [ | [k0 v0] o IH]; simpl.
  - by rewrite String.eqb_refl.
  - destruct (String.eqb_spec k0 k) as [-> | Hne]; simpl.
    + by rewrite String.eqb_refl.
    + destruct (String.eqb_spec k0 k); [done |]. exact IH.
Qed.

Lemma has_prop_absent k (o : JsObject) :
  k ∉ map fst o -> has_prop k o = false.
Proof.
  unfold has_prop. induction o as [ | [k0 v0] o IH]; simpl; [done |].
  intros Hnotin. apply not_elem_of_cons in Hnotin as [Hne Hrest].
  rewrite (IH Hrest), orb_false_r.
  destruct (String.eqb_spec k0 k); congruence.
Qed.

(** A key the spread source has takes the value it has there. *)
Lemma get_prop_spread_present k src acc :
  NoDup (map fst src) ->
  has_prop k src = true ->
  get_prop k (spread src acc) = get_prop k src.
Proof.
  unfold spread. revert acc.
  induction src as [ | [k0 v0] src IH]; simpl; intros acc Hnodup Hhas;
    [done |].
  apply NoDup_cons in Hnodup as [Hfresh Hnodup].
  destruct (String.eqb_spec k0 k) as [-> | Hne].
  - fold (spread src (set_prop k v0 acc)).
    rewrite get_prop_spread by (by apply has_prop_absent).
    apply get_prop_set_prop_eq.
  - apply IH; [done |]. unfold has_prop in *. simpl in Hhas.
    destruct (String.eqb_spec k0 k); [done |]. exact Hhas.
Qed.

(** X3. The job data the create route hands to the enqueue collaborator is the
    body of the request, completed by the drawn identifier and the caller's
    user id for the keys [id] and [userId] the body does not have: a body
    that brings its own [id] or [userId] decides them. *)
Theorem job_data_is_body_over_defaults deps req userId w k :
  Authorized deps req userId ->
  NoRunningJob userId w ->
  NoDup (map fst (body req)) ->
  exists call,
    enqueueCalls (snd (createDigest deps req w)) = enqueueCalls w ++ [call]
    /\ callSchedule call = get_prop "schedule" (body req)
    /\ get_prop k (callData call)
       = if has_prop k (body req) then get_prop k (body req)
         else get_prop k [("id", JStr (uuid deps (uuidCount w)));
                          ("userId", JStr userId)].
Proof.
  intros Hauth Hjob Hnodup. exists (submission deps req userId w).
  rewrite (createDigest_authorized _ _ _ _ Hauth).
  rewrite (running_test_no_job _ _ Hjob). cbv zeta.
  fold (submission deps req userId w).
  split; [| split].
  - by destruct (enqueueCollaborator _ _ _ _) as [[result | ] store].
  - reflexivity.
  - unfold submission. simpl callData.
    destruct (has_prop k (body req)) eqn:Hhas.
    + by apply get_prop_spread_present.
    + by apply get_prop_spread.
Qed.

Lemma job_data_is_body_over_defaults_witness :
  exists call,
    enqueueCalls (snd (createDigest Samples.deps
                         (Samples.asAlice [("userId", JStr "bob")])
                         Samples.fresh)) = [] ++ [call]
    /\ callSchedule call = JUndefined
    /\ get_prop "userId" (callData call) = JStr "bob".
Proof.
  assert (Hauth : Authorized Samples.deps
                    (Samples.asAlice [("userId", JStr "bob")]) "alice")
    by (by repeat split).
  assert (Hjob : NoRunningJob "alice" Samples.fresh) by (by left).
  assert (Hnodup : NoDup (map fst [("userId", JStr "bob")]))
    by (apply NoDup_singleton).
  exact (job_data_is_body_over_defaults Samples.deps
           (Samples.asAlice [("userId", JStr "bob")]) "alice" Samples.fresh
           "userId" Hauth Hjob Hnodup).
Defined.

(** X4. Two create requests in a row, with an enqueue collaborator that accepts
    and leaves the keyed store alone: both are answered 201 and both are
    enqueued, the second under the next identifier. Nothing but a Running
    record in the store holds a repeated request back. *)
Theorem two_submits_are_two_jobs deps req userId w :
  Authorized deps req userId ->
  NoRunningJob userId w ->
  (forall call t store,
      exists result, enqueueCollaborator deps call t store
                     = (Returns result, store)) ->
  status (fst (createDigest deps req w)) = 201
  /\ status (fst (createDigest deps req (snd (createDigest deps req w)))) = 201
  /\ enqueueCalls (snd (createDigest deps req (snd (createDigest deps req w))))
     = enqueueCalls w
         ++ [mkCall (spread (body req)
                            [("id", JStr (uuid deps (uuidCount w)));
                             ("userId", JStr userId)])
                    (get_prop "schedule" (body req));
             mkCall (spread (body req)
                            [("id", JStr (uuid deps (S (uuidCount w))));
                             ("userId", JStr userId)])
                    (get_prop "schedule" (body req))].
Proof.
  intros Hauth Hjob Haccepts.
  assert (Hfirst :
            createDigest deps req w
            = (send 201 (match fst (enqueueCollaborator deps
                                      (submission deps req userId w) (now w)
                                      (redisClient w)) with
                         | Returns result => result
                         | Throws => JUndefined
                         end),
               mkWorld (redisClient w) (now w) (S (uuidCount w))
                       (enqueueCalls w ++ [submission deps req userId w])
                       (captured w) (logged w))).
  { rewrite (createDigest_authorized _ _ _ _ Hauth).
    rewrite (running_test_no_job _ _ Hjob). cbv zeta.
    fold (submission deps req userId w).
    destruct (Haccepts (submission deps req userId w) (now w) (redisClient w))
      as [result ->]. reflexivity. }
  rewrite Hfirst. simpl fst. simpl snd.
  set (w1 := mkWorld _ _ _ _ _ _).
  assert (Hjob1 : NoRunningJob userId w1) by exact Hjob.
  rewrite (createDigest_authorized _ _ _ _ Hauth).
  rewrite (running_test_no_job _ _ Hjob1). cbv zeta.
  destruct (Haccepts (submission deps req userId w1) (now w1) (redisClient w1))
    as [result Hresult].
  unfold submission in Hresult. rewrite Hresult. simpl.
  rewrite <- app_assoc. done.
Qed.

Lemma two_submits_are_two_jobs_witness :
  enqueueCalls (snd (createDigest Samples.deps (Samples.asAlice [])
                       (snd (createDigest Samples.deps (Samples.asAlice [])
                                          Samples.fresh))))
  = [] ++ [mkCall (spread [] [("id", JStr (uuid Samples.deps 0));
                              ("userId", JStr "alice")]) JUndefined;
           mkCall (spread [] [("id", JStr (uuid Samples.deps 1));
                              ("userId", JStr "alice")]) JUndefined].
Proof.
  assert (Hauth : Authorized Samples.deps (Samples.asAlice []) "alice")
    by (by repeat split).
  assert (Hjob : NoRunningJob "alice" Samples.fresh) by (by left).
  assert (Haccepts :
            forall call t store,
              exists result, enqueueCollaborator Samples.deps call t store
                             = (Returns result, store))
    by (intros; eexists; reflexivity).
  exact (proj2 (proj2 (two_submits_are_two_jobs Samples.deps
                         (Samples.asAlice []) "alice" Samples.fresh
                         Hauth Hjob Haccepts))).
Defined.

(** X5. A Running record written for the user holds create requests back for
    one week, and no longer: once the record has expired a create request is
    enqueued again. *)
Theorem running_job_blocks_until_expiry deps req userId d w store seconds :
  Authorized deps req userId ->
  redisClient w = Some store ->
  jobState d = Running ->
  (seconds < oneWeek ->
   fst (createDigest deps req (elapse seconds (snd (writeDigest userId d w))))
   = sendStatus 202)
  /\ (oneWeek <= seconds ->
      enqueueCalls
        (snd (createDigest deps req
                (elapse seconds (snd (writeDigest userId d w)))))
      = enqueueCalls w
          ++ [mkCall (spread (body req)
                             [("id", JStr (uuid deps (uuidCount w)));
                              ("userId", JStr userId)])
                     (get_prop "schedule" (body req))]).
Proof.
  intros Hauth Hclient Hstate.
  pose proof (stored_after_write userId d w store seconds Hclient) as Hstored.
  rewrite (createDigest_authorized _ _ _ _ Hauth).
  split; intros Hseconds.
  - destruct (Z.ltb_spec seconds oneWeek); [| lia].
    rewrite (running_test_stored _ _ _ Hstored).
    by rewrite bool_decide_eq_true_2.
  - destruct (Z.ltb_spec seconds oneWeek); [lia |].
    rewrite running_test_no_job by (by left). cbv zeta.
    destruct (enqueueCollaborator _ _ _ _) as [[result | ] store'];
      simpl; unfold writeDigest; by rewrite Hclient.
Qed.

Lemma running_job_blocks_until_expiry_witness :
  fst (createDigest Samples.deps (Samples.asAlice [])
         (elapse 604799 (snd (writeDigest "alice" (Samples.job "J" Running)
                                          Samples.fresh))))
  = sendStatus 202
  /\ enqueueCalls
       (snd (createDigest Samples.deps (Samples.asAlice [])
               (elapse 604800 (snd (writeDigest "alice"
                                      (Samples.job "J" Running)
                                      Samples.fresh)))))
     = [] ++ [mkCall (spread [] [("id", JStr (uuid Samples.deps 0));
                                 ("userId", JStr "alice")]) JUndefined].
Proof.
  assert (Hauth : Authorized Samples.deps (Samples.asAlice []) "alice")
    by (by repeat split).
  assert (Hbefore : 604799 < oneWeek) by (by vm_compute).
  assert (Hafter : oneWeek <= 604800) by (by vm_compute).
  split.
  - exact (proj1 (running_job_blocks_until_expiry Samples.deps
                    (Samples.asAlice []) "alice" (Samples.job "J" Running)
                    Samples.fresh ∅ 604799 Hauth eq_refl eq_refl) Hbefore).
  - exact (proj2 (running_job_blocks_until_expiry Samples.deps
                    (Samples.asAlice []) "alice" (Samples.job "J" Running)
                    Samples.fresh ∅ 604800 Hauth eq_refl eq_refl) Hafter).
Defined.

(** ** More on the status and feedback routes *)

(** X7. The status and feedback routes answer a request whose authorization or
    entitlement check fails like the create route does: with the bare 401
    or 403, changing nothing but the log; in particular nothing is handed to
    the analytics sink. *)
Theorem status_and_feedback_denied deps req code w :
  Denied deps req code ->
  fst (getDigestRoute deps req w) = sendStatus code
  /\ fst (sendFeedback deps req w) = sendStatus code
  /\ quiet w (snd (sendFeedback deps req w)).
Proof.
  intros [H | H | claims H Huser | claims H Huser Hfeature];
    unfold getDigestRoute, sendFeedback.
  - unfold resolveUserId, tryCatch, mbind, M_bind, bind, await.
    rewrite H. simpl. auto.
  - unfold resolveUserId, tryCatch, mbind, M_bind, bind, await.
    rewrite H. simpl. auto.
  - rewrite !(resolveUserId_claims _ _ _ _ H).
    unfold tryCatch, mbind, M_bind, bind, await. rewrite Huser. simpl. auto.
  - rewrite !(resolveUserId_claims _ _ _ _ H).
    unfold tryCatch, mbind, M_bind, bind, await.
    rewrite Huser. simpl. rewrite Hfeature. simpl. auto.
Qed.

Lemma status_and_feedback_denied_witness :
  fst (getDigestRoute Samples.deps (Samples.asBob []) (Samples.holding Succeeded))
  = sendStatus 403
  /\ fst (sendFeedback Samples.deps (Samples.asBob Samples.ratings)
                       Samples.fresh) = sendStatus 403
  /\ quiet Samples.fresh
           (snd (sendFeedback Samples.deps (Samples.asBob Samples.ratings)
                              Samples.fresh)).
Proof.
  assert (H : forall body, Denied Samples.deps (Samples.asBob body) 403).
  { intros body. apply (FeatureNotGranted _ _ (mkClaims "bob")); reflexivity. }
  split.
  - exact (proj1 (status_and_feedback_denied _ _ _ (Samples.holding Succeeded)
                    (H []))).
  - exact (proj2 (status_and_feedback_denied _ _ _ Samples.fresh
                    (H Samples.ratings))).
Defined.

(** X8. The feedback route never touches the keyed store, the clock, the
    identifiers or the task queue, whatever the request; it hands at most
    one event to the analytics sink. *)
Theorem feedback_touches_analytics_only deps req w :
  redisClient (snd (sendFeedback deps req w)) = redisClient w
  /\ now (snd (sendFeedback deps req w)) = now w
  /\ uuidCount (snd (sendFeedback deps req w)) = uuidCount w
  /\ enqueueCalls (snd (sendFeedback deps req w)) = enqueueCalls w
  /\ (captured (snd (sendFeedback deps req w)) = captured w
      \/ exists e, captured (snd (sendFeedback deps req w)) = captured w ++ [e]).
Proof.
  unfold sendFeedback, resolveUserId, tryCatch, mbind, M_bind, bind, await.
  destruct (getClaimsByToken deps (token req)) as [[claims | ] | ];
    simpl; auto 10.
  destruct (findActiveUser deps (uid claims)) as [[ | ] | ]; simpl; auto 10.
  destruct (findGrantedFeatureByName deps AIDigest (uid claims))
    as [[ | ] | ]; simpl; auto 10.
  destruct (isFeedback (body req)); simpl; eauto 10.
Qed.

(** X9. For a caller who passes the checks the status route answers 404
    whenever [getDigest] gives nothing truthy: no client, no record, an
    expired record, or a stored document that is [null], [false], [0] or
    the empty string. Whenever [getDigest] gives an object it answers
    200. *)
Theorem status_not_found_iff_nothing_truthy deps req userId w :
  Authorized deps req userId ->
  (truthy (currentDigest userId w) = false ->
   getDigestRoute deps req w
   = (sendStatus 404, addLog (DigestNotFound userId) w))
  /\ (forall props,
         currentDigest userId w = JObj props ->
         status (fst (getDigestRoute deps req w)) = 200)
  /\ (forall store j,
         redisClient w = Some store ->
         store !! digestKey userId = Some (mkEntry j (now w + 1)) ->
         In j [JsonNull; JsonBool false; JsonNum 0; JsonStr ""] ->
         fst (getDigestRoute deps req w) = sendStatus 404).
Proof.
  intros Hauth. rewrite (getDigestRoute_authorized _ _ _ _ Hauth). cbv zeta.
  split; [| split].
  - by intros ->.
  - intros props ->. simpl. by destruct (strictEqStr _ _).
  - intros store j Hclient Hentry Hj.
    assert (Hnothing : truthy (currentDigest userId w) = false).
    { unfold currentDigest, stored. rewrite Hclient. simpl.
      unfold redisGet. rewrite Hentry. simpl.
      destruct (Z.ltb_spec (now w) (now w + 1)); [| lia].
      simpl in Hj. by destruct Hj as [<- | [<- | [<- | [<- | []]]]]. }
    by rewrite Hnothing.
Qed.

Lemma status_not_found_iff_nothing_truthy_witness :
  getDigestRoute Samples.deps (Samples.asAlice []) Scenarios.offline
  = (sendStatus 404, addLog (DigestNotFound "alice") Scenarios.offline)
  /\ fst (getDigestRoute Samples.deps (Samples.asAlice [])
            (mkWorld (Some {[ digestKey "alice" := mkEntry (JsonNum 0) 1 ]})
                     0 0 [] [] []))
     = sendStatus 404.
Proof.
  assert (Hauth : Authorized Samples.deps (Samples.asAlice []) "alice")
    by (by repeat split).
  split.
  - exact (proj1 (status_not_found_iff_nothing_truthy Samples.deps
                    (Samples.asAlice []) "alice" Scenarios.offline Hauth)
                 eq_refl).
  - apply (proj2 (proj2 (status_not_found_iff_nothing_truthy Samples.deps
                    (Samples.asAlice []) "alice"
                    (mkWorld (Some {[ digestKey "alice"
                                        := mkEntry (JsonNum 0) 1 ]})
                             0 0 [] [] []) Hauth))
           {[ digestKey "alice" := mkEntry (JsonNum 0) 1 ]} (JsonNum 0)).
    + reflexivity.
    + by vm_compute.
    + simpl. auto.
Defined.

Lemma get_prop_absent k o : has_prop k o = false -> get_prop k o = JUndefined.
Proof.
  unfold has_prop. induction o as [ | [k0 v0] o IH]; simpl; [done |].
  intros [Hk Hrest]%orb_false_iff. rewrite Hk. by apply IH.
Qed.

Lemma get_prop_delete_prop_ne k k' o :
  k <> k' -> get_prop k (delete_prop k' o) = get_prop k o.
Proof.
  intros Hne. unfold delete_prop.
  induction o as [ | [k0 v0] o IH]; simpl; [done |].
  destruct (String.eqb_spec k0 k') as [-> | Hne']; simpl.
  - destruct (String.eqb_spec k' k); [congruence | exact IH].
  - by rewrite IH.
Qed.

Lemma has_prop_delete_prop_ne k k' o :
  k <> k' -> has_prop k (delete_prop k' o) = has_prop k o.
Proof.
  intros Hne. unfold has_prop, delete_prop.
  induction o as [ | [k0 v0] o IH]; simpl; [done |].
  destruct (String.eqb_spec k0 k') as [-> | Hne']; simpl.
  - destruct (String.eqb_spec k' k); [congruence | exact IH].
  - by rewrite IH.
Qed.

Lemma keys_delete_prop k k' (o : JsObject) :
  k ∈ map fst (delete_prop k' o) -> k ∈ map fst o.
Proof.
  unfold delete_prop. induction o as [ | [k0 v0] o IH]; simpl; [done |].
  destruct (negb (String.eqb k0 k')); simpl; rewrite ?elem_of_cons; intuition.
Qed.

Lemma NoDup_delete_prop k (o : JsObject) :
  NoDup (map fst o) -> NoDup (map fst (delete_prop k o)).
Proof.
  induction o as [ | [k0 v0] o IH]; simpl; [done |].
  intros [Hfresh Hnodup]%NoDup_cons. specialize (IH Hnodup).
  unfold delete_prop in *. simpl.
  destruct (negb (String.eqb k0 k)); simpl; [| done].
  apply NoDup_cons. split; [| done].
  intros Hin. apply Hfresh. by apply (keys_delete_prop _ k).
Qed.

(** An object literal that only spreads an object with distinct keys reads
    like that object. *)
Lemma get_prop_spread_empty k src :
  NoDup (map fst src) -> get_prop k (spread src []) = get_prop k src.
Proof.
  intros Hnodup. destruct (has_prop k src) eqn:Hhas.
  - by apply get_prop_spread_present.
  - rewrite get_prop_spread by done. by rewrite (get_prop_absent _ _ Hhas).
Qed.

(** X10. What the analytics sink receives of an accepted feedback: under [env]
    the environment of the server, whatever the payload said there, and
    every other property of the payload but the comment, with its value. *)
Theorem feedback_forwards_all_but_comment deps req userId w k :
  Authorized deps req userId ->
  isFeedback (body req) = true ->
  NoDup (map fst (body req)) ->
  exists e,
    captured (snd (sendFeedback deps req w)) = captured w ++ [e]
    /\ get_prop "env" (properties e) = JStr (apiEnv deps)
    /\ (k <> "comment" -> k <> "env" ->
        get_prop k (properties e) = get_prop k (body req)
        /\ has_prop k (properties e) = has_prop k (body req)).
Proof.
  intros Hauth Hvalid Hnodup.
  rewrite (sendFeedback_authorized _ _ _ _ Hauth), Hvalid. simpl.
  eexists. split; [reflexivity |]. simpl. split.
  - apply get_prop_set_prop_eq.
  - intros Hcomment Henv. split.
    + rewrite get_prop_set_prop_ne by done.
      rewrite get_prop_spread_empty by (by apply NoDup_delete_prop).
      by apply get_prop_delete_prop_ne.
    + rewrite has_prop_set_prop, has_prop_spread.
      change (has_prop k []) with false. cbn [orb].
      rewrite has_prop_delete_prop_ne by done.
      destruct (String.eqb_spec "env" k); [congruence |].
      by rewrite orb_false_r.
Qed.

Lemma feedback_forwards_all_but_comment_witness :
  exists e,
    captured (snd (sendFeedback Samples.deps
                     (Samples.asAlice Scenarios.commented) Samples.fresh))
    = [] ++ [e]
    /\ get_prop "env" (properties e) = JStr "prod"
    /\ get_prop "rankingRating" (properties e) = JStr "high".
Proof.
  assert (Hauth : Authorized Samples.deps
                    (Samples.asAlice Scenarios.commented) "alice")
    by (by repeat split).
  assert (Hnodup : NoDup (map fst (body (Samples.asAlice Scenarios.commented))))
    by exact (bool_decide_unpack
                (NoDup (map fst (body (Samples.asAlice Scenarios.commented))))
                I).
  destruct (feedback_forwards_all_but_comment Samples.deps
              (Samples.asAlice Scenarios.commented) "alice" Samples.fresh
              "rankingRating" Hauth eq_refl Hnodup)
    as (e & Hcaptured & Henv & Hkept).
  exists e. split; [exact Hcaptured |]. split; [exact Henv |].
  exact (proj1 (Hkept ltac:(discriminate) ltac:(discriminate))).
Defined.

Lemma stringify_member k v j (o : JsObject) :
  In (k, v) o -> JSON_stringify v = Some j ->
  In (k, j) (omap (fun e => pair (fst e) <$> JSON_stringify (snd e)) o).
Proof.
  intros Hin Hj. apply list_elem_of_In, list_elem_of_omap.
  exists (k, v). split; [by apply list_elem_of_In |]. simpl. by rewrite Hj.
Qed.

(** X11. The comment of an accepted feedback, kept from the analytics sink, is
    written to the log: the route logs the serialised payload before it
    deletes the comment. *)
Theorem feedback_comment_is_logged deps req userId w c :
  Authorized deps req userId ->
  isFeedback (body req) = true ->
  In ("comment", JStr c) (body req) ->
  exists members,
    logged (snd (sendFeedback deps req w))
    = logged w ++ [SendingFeedback (Some (JsonObj members))]
    /\ In ("comment", JsonStr c) members.
Proof.
  intros Hauth Hvalid Hcomment.
  rewrite (sendFeedback_authorized _ _ _ _ Hauth), Hvalid. simpl.
  eexists. split; [reflexivity |].
  by apply (stringify_member "comment" (JStr c)).
Qed.

Lemma feedback_comment_is_logged_witness :
  exists members,
    logged (snd (sendFeedback Samples.deps
                   (Samples.asAlice Scenarios.commented) Samples.fresh))
    = [] ++ [SendingFeedback (Some (JsonObj members))]
    /\ In ("comment", JsonStr "too long") members.
Proof.
  assert (Hauth : Authorized Samples.deps
                    (Samples.asAlice Scenarios.commented) "alice")
    by (by repeat split).
  assert (Hcomment : In ("comment", JStr "too long")
                        (body (Samples.asAlice Scenarios.commented)))
    by (simpl; auto 10).
  exact (feedback_comment_is_logged Samples.deps
           (Samples.asAlice Scenarios.commented) "alice" Samples.fresh
           "too long" Hauth eq_refl Hcomment).
Defined.

(** ** More on the digest service *)

Lemma digestKey_inj userId other : digestKey userId = digestKey other -> userId = other.
Proof. unfold digestKey. simpl. by intros [=]. Qed.

(** X12. A write for one user never changes what another user reads, at any
    later time, with or without a client. *)
Theorem writeDigest_leaves_other_users userId other d w seconds :
  userId <> other ->
  fst (getDigest other (elapse seconds (snd (writeDigest userId d w))))
  = fst (getDigest other (elapse seconds w)).
Proof.
  intros Hne. rewrite !getDigest_current. simpl.
  unfold currentDigest, stored, writeDigest.
  destruct (redisClient w) as [store | ] eqn:Hclient; simpl.
  - rewrite Hclient. simpl. unfold redisGet, redisSet.
    rewrite lookup_insert_ne; [done |].
    intros Hkey. by apply digestKey_inj in Hkey.
  - by rewrite Hclient.
Qed.

Lemma writeDigest_leaves_other_users_witness :
  fst (getDigest "alice"
         (elapse 60 (snd (writeDigest "bob" Samples.dated
                                      (Samples.holding Running)))))
  = fst (getDigest "alice" (elapse 60 (Samples.holding Running))).
Proof.
  exact (writeDigest_leaves_other_users "bob" "alice" Samples.dated
           (Samples.holding Running) 60 ltac:(discriminate)).
Defined.

(** X13. A second write for the same user replaces the record and starts the
    week anew: however long after the first write it happens, the second
    record is read for the next 604800 seconds. *)
Theorem writeDigest_replaces_and_renews userId d1 d2 w store between after :
  redisClient w = Some store ->
  after < oneWeek ->
  stored userId
    (elapse after
       (snd (writeDigest userId d2
               (elapse between (snd (writeDigest userId d1 w))))))
  = JSON_stringify (digestToJs d2).
Proof.
  intros Hclient Hafter.
  assert (Hclient1 :
            redisClient (elapse between (snd (writeDigest userId d1 w)))
            = Some (redisSet (digestKey userId)
                             (stringifyObject (digestPropsWith JDate d1))
                             oneWeek (now w) store)).
  { unfold writeDigest. by rewrite Hclient. }
  rewrite (stored_after_write _ _ _ _ _ Hclient1).
  by destruct (Z.ltb_spec after oneWeek); [| lia].
Qed.

Lemma writeDigest_replaces_and_renews_witness :
  stored "alice"
    (elapse 604799
       (snd (writeDigest "alice" Samples.dated
               (elapse 700000 (Samples.holding Running)))))
  = JSON_stringify (digestToJs Samples.dated).
Proof.
  assert (Hafter : 604799 < oneWeek) by (by vm_compute).
  exact (writeDigest_replaces_and_renews "alice" (Samples.job "J" Running)
           Samples.dated Samples.fresh ∅ 700000 604799 eq_refl Hafter).
Defined.

(** X14. Without a client to the keyed store: [writeDigest] throws after
    logging and stores nothing, [getDigest] returns [null], and for a
    caller who passes the checks the status route answers 404 while the
    create route is never held back with 202. *)
Theorem without_redis_client deps req userId d w :
  redisClient w = None ->
  writeDigest userId d w = (Throws, addLog (WriteDigestError userId) w)
  /\ getDigest userId w = (Returns JNull, w)
  /\ (Authorized deps req userId ->
      fst (getDigestRoute deps req w) = sendStatus 404
      /\ status (fst (createDigest deps req w)) <> 202).
Proof.
  intros Hclient.
  assert (Hcurrent : currentDigest userId w = JNull)
    by (unfold currentDigest, stored; by rewrite Hclient).
  split; [| split].
  - unfold writeDigest. by rewrite Hclient.
  - by rewrite getDigest_current, Hcurrent.
  - intros Hauth. split.
    + by rewrite (getDigestRoute_authorized _ _ _ _ Hauth), Hcurrent.
    + rewrite (createDigest_authorized _ _ _ _ Hauth), Hcurrent. simpl.
      by destruct (enqueueCollaborator _ _ _ _) as [[result | ] store].
Qed.

Lemma without_redis_client_witness :
  writeDigest "alice" Samples.dated Scenarios.offline
  = (Throws, addLog (WriteDigestError "alice") Scenarios.offline)
  /\ getDigest "alice" Scenarios.offline = (Returns JNull, Scenarios.offline).
Proof.
  destruct (without_redis_client Samples.deps (Samples.asAlice []) "alice"
              Samples.dated Scenarios.offline eq_refl)
    as (Hwrite & Hread & _).
  split; [exact Hwrite | exact Hread].
Defined.

Lemma jsonClean_parse j : jsonClean (JSON_parse j) = true.
Proof.
  induction j as [ | b | z | s | js IH | members IH] using Json_nested_ind;
    simpl; try reflexivity.
  - induction IH as [ | j js Hj _ IHjs]; simpl; [done |].
    by rewrite Hj, IHjs.
  - induction IH as [ | [k j] members Hj _ IHm]; simpl in *; [done |].
    by rewrite Hj, IHm.
Qed.

Lemma get_prop_clean k props :
  forallb (fun e : string * JsValue => jsonClean (snd e)) props = true ->
  get_prop k props = JUndefined \/ jsonClean (get_prop k props) = true.
Proof.
  induction props as [ | [k0 v0] props IH]; simpl; [by left |].
  intros [Hv Hrest]%andb_true_iff.
  destruct (String.eqb k0 k); [by right | by apply IH].
Qed.

(** X15. For a keyed store that holds JSON documents, as [writeDigest]
    writes them: what [getDigest] returns is the parsed document, plain JSON
    data, and no property of it is a [Date], although the interface
    [Digest] declares [createdAt] as one. *)
Theorem getDigest_returns_plain_json userId w :
  exists v,
    getDigest userId w = (Returns v, w)
    /\ jsonClean v = true
    /\ forall k iso, member v k <> JDate iso.
Proof.
  exists (currentDigest userId w). split; [apply getDigest_current |].
  assert (Hclean : jsonClean (currentDigest userId w) = true).
  { unfold currentDigest. destruct (stored userId w); [| done].
    apply jsonClean_parse. }
  split; [exact Hclean |].
  intros k iso. destruct (currentDigest userId w); simpl; try done.
  intros Hdate. simpl in Hclean.
  destruct (get_prop_clean k props Hclean) as [Hu | Hc];
    rewrite Hdate in *; done.
Qed.

(** ** More on the usage limit *)

Section UsageLimitMore.
Import UsageLimit.

(** X16. A request without a user id in its claims, with an empty one, without
    a query text, or whose query text does not contain the action name is
    outside the limit: it is executed even when every counter is exhausted,
    and nothing is counted. *)
Theorem requests_outside_the_limit_pass execute ctx l :
  claimsUid ctx = None
  \/ claimsUid ctx = Some ""
  \/ query ctx = None
  \/ (exists q, query ctx = Some q /\ includes action q = false) ->
  serve execute ctx l
  = (Responded (execute ctx),
     mkLedger (counts l) (today l) (executed l ++ [ctx])).
Proof.
  intros Houtside.
  assert (Hgated : gatedUser ctx = None).
  { unfold gatedUser.
    destruct Houtside as [-> | [-> | [Hq | (q & -> & Hq)]]]; simpl.
    - done.
    - by destruct (query ctx).
    - rewrite Hq. by destruct (claimsUid ctx).
    - rewrite Hq. destruct (claimsUid ctx) as [u | ]; [| done].
      by rewrite andb_false_r. }
  unfold serve, requestDidStart, willSendResponse. by rewrite Hgated.
Qed.

Lemma requests_outside_the_limit_pass_witness :
  serve (fun _ => mkGraphQLResponse None JNull)
        (mkContext (Some "mutation { replyToEmail(id: 4) { id } }") None)
        (mkLedger {[ ("u1", "replyToEmail", 19000) := 3 ]} 19000 [])
  = (Responded (mkGraphQLResponse None JNull),
     mkLedger {[ ("u1", "replyToEmail", 19000) := 3 ]} 19000
       ([] ++ [mkContext (Some "mutation { replyToEmail(id: 4) { id } }")
                         None])).
Proof.
  exact (requests_outside_the_limit_pass
           (fun _ => mkGraphQLResponse None JNull)
           (mkContext (Some "mutation { replyToEmail(id: 4) { id } }") None)
           (mkLedger {[ ("u1", "replyToEmail", 19000) := 3 ]} 19000 [])
           (or_introl eq_refl)).
Defined.

Lemma substring_prefix s t :
  String.substring 0 (String.length s) (s +:+ t) = s.
Proof.
  induction s as [ | c s IH]; simpl.
  - by destruct t.
  - by rewrite IH.
Qed.

Lemma substring_inside pre s t :
  String.substring (String.length pre) (String.length s) (pre +:+ s +:+ t) = s.
Proof.
  induction pre as [ | c pre IH]; [exact (substring_prefix s t) | exact IH].
Qed.

Lemma includes_inside pre s t : s <> "" -> includes s (pre +:+ s +:+ t) = true.
Proof.
  intros Hs. unfold includes.
  destruct (String.index 0 s (pre +:+ s +:+ t)) eqn:Hindex; [done |].
  exfalso.
  apply (String.index_correct3 0 (String.length pre) s (pre +:+ s +:+ t));
    [done | done | apply Nat.le_0_l | apply substring_inside].
Qed.

(** X17. The limit goes by the text of the query: a request of a user whose
    query text contains [replyToEmail] anywhere — in a comment, in a longer
    name — is under the limit, and is rejected once the user's count of the
    day has reached it. *)
Theorem any_mention_of_the_action_is_limited execute userId before after l :
  userId <> "" ->
  MAX_SENT_EMAIL_PER_DAY <= countDailyServiceUsage userId action l ->
  serve execute
        (mkContext (Some (before +:+ "replyToEmail" +:+ after)) (Some userId)) l
  = (Rejected, l).
Proof.
  intros Huser Hlimit. apply (serve_at_limit _ _ userId); [| done].
  unfold gatedUser, action. cbn [claimsUid query].
  destruct (String.eqb_spec userId ""); [done |]. cbn [negb andb].
  by rewrite (includes_inside before "replyToEmail" after).
Qed.

Lemma any_mention_of_the_action_is_limited_witness :
  serve (fun _ => mkGraphQLResponse None JNull)
        (mkContext (Some ("query { me { id } } # no " +:+ "replyToEmail"
                            +:+ " here"))
                   (Some "u1"))
        (mkLedger {[ ("u1", "replyToEmail", 19000) := 3 ]} 19000 [])
  = (Rejected, mkLedger {[ ("u1", "replyToEmail", 19000) := 3 ]} 19000 []).
Proof.
  assert (Hlimit :
            MAX_SENT_EMAIL_PER_DAY
            <= countDailyServiceUsage "u1" action
                 (mkLedger {[ ("u1", "replyToEmail", 19000) := 3 ]} 19000 []))
    by (by vm_compute).
  exact (any_mention_of_the_action_is_limited
           (fun _ => mkGraphQLResponse None JNull) "u1"
           "query { me { id } } # no " " here"
           (mkLedger {[ ("u1", "replyToEmail", 19000) := 3 ]} 19000 [])
           ltac:(discriminate) Hlimit).
Defined.

(** X18. Error codes are looked for under [data.replyToEmail] only: a response
    without an error list whose data has no such property is counted as a
    completion, whatever else the data holds. *)
Theorem response_without_reply_field_is_counted execute ctx userId l :
  gatedUser ctx = Some userId ->
  countDailyServiceUsage userId action l < MAX_SENT_EMAIL_PER_DAY ->
  errors (execute ctx) = None ->
  optMember (data (execute ctx)) "replyToEmail" = JUndefined ->
  countDailyServiceUsage userId action (snd (serve execute ctx l))
  = countDailyServiceUsage userId action l + 1.
Proof.
  intros Hgated Hunder Herrors Hreply.
  destruct (serve_under_limit execute ctx userId l Hgated Hunder)
    as (_ & _ & _ & ->).
  unfold withoutErrors. by rewrite Herrors, Hreply.
Qed.

Lemma response_without_reply_field_is_counted_witness :
  countDailyServiceUsage "u1" action
    (snd (serve
            (fun _ => mkGraphQLResponse None
                        (JObj [("reply",
                                JObj [("errorCodes",
                                       JArr [JStr "UNAUTHORIZED"])])]))
            (mkContext (Some "mutation { reply: replyToEmail(id: 4) }")
                       (Some "u1"))
            (mkLedger ∅ 19000 [])))
  = countDailyServiceUsage "u1" action (mkLedger ∅ 19000 []) + 1.
Proof.
  assert (Hunder :
            countDailyServiceUsage "u1" action (mkLedger ∅ 19000 [])
            < MAX_SENT_EMAIL_PER_DAY) by (by vm_compute).
  exact (response_without_reply_field_is_counted
           (fun _ => mkGraphQLResponse None
                       (JObj [("reply",
                               JObj [("errorCodes",
                                      JArr [JStr "UNAUTHORIZED"])])]))
           (mkContext (Some "mutation { reply: replyToEmail(id: 4) }")
                      (Some "u1"))
           "u1" (mkLedger ∅ 19000 []) eq_refl Hunder eq_refl eq_refl).
Defined.

Lemma finishAll_counts userId l0 requests l :
  Forall (fun r => gatedUser (snd r) = Some userId
                   /\ withoutErrors (fst r (snd r)) = true) requests ->
  countDailyServiceUsage userId action l0 < MAX_SENT_EMAIL_PER_DAY ->
  fst (ReplyExecution.finishAll l0 requests l)
  = map (fun r => Responded (fst r (snd r))) requests
  /\ countDailyServiceUsage userId action
       (snd (ReplyExecution.finishAll l0 requests l))
     = countDailyServiceUsage userId action l + Z.of_nat (length requests).
Proof.
  intros Hall Hroom. revert l.
  induction Hall as [ | [execute ctx] requests [Hgated Hok] _ IH];
    intros l; simpl in *; [split; [done | lia] |].
  unfold requestDidStart. rewrite Hgated.
  destruct (Z.leb_spec MAX_SENT_EMAIL_PER_DAY
              (countDailyServiceUsage userId action l0)); [lia |].
  unfold willSendResponse. rewrite Hgated, Hok.
  set (l1 := createServiceUsage _ _ _).
  destruct (IH l1) as [Hserved Hcount].
  destruct (ReplyExecution.finishAll l0 requests l1) as [rs l2].
  simpl in *. split; [by rewrite Hserved |].
  rewrite Hcount. subst l1. rewrite count_createServiceUsage.
  unfold countDailyServiceUsage. simpl. lia.
Qed.

(** X19. The check and the increment are separate steps. Requests of one
    user for the action that have all started before any of them has
    finished, at a count below the limit, all pass the check on the count
    they saw and are all executed; when they complete without errors each
    one is counted, so the count of the day ends at the count they saw plus
    their number, above the limit when more of them overlap than the limit
    had room for. *)
Theorem overlapping_requests_are_all_counted requests userId l :
  Forall (fun r => gatedUser (snd r) = Some userId
                   /\ withoutErrors (fst r (snd r)) = true) requests ->
  countDailyServiceUsage userId action l < MAX_SENT_EMAIL_PER_DAY ->
  fst (ReplyExecution.serveOverlapping requests l)
  = map (fun r => Responded (fst r (snd r))) requests
  /\ countDailyServiceUsage userId action
       (snd (ReplyExecution.serveOverlapping requests l))
     = countDailyServiceUsage userId action l + Z.of_nat (length requests).
Proof.
  intros Hall Hroom. by apply finishAll_counts.
Qed.

Lemma overlapping_requests_are_all_counted_witness :
  countDailyServiceUsage "u1" action
    (snd (ReplyExecution.serveOverlapping
            (replicate 2
               (ReplyExecution.executeReply None ReplyExecution.ReplySent,
                ReplyExecution.replyRequest "u1" None))
            (mkLedger {[ ("u1", "replyToEmail", 19000) := 2 ]} 19000 [])))
  = countDailyServiceUsage "u1" action
      (mkLedger {[ ("u1", "replyToEmail", 19000) := 2 ]} 19000 [])
    + Z.of_nat 2.
Proof.
  assert (Hroom :
            countDailyServiceUsage "u1" action
              (mkLedger {[ ("u1", "replyToEmail", 19000) := 2 ]} 19000 [])
            < MAX_SENT_EMAIL_PER_DAY) by (by vm_compute).
  assert (Hall :
            Forall (fun r => gatedUser (snd r) = Some "u1"
                             /\ withoutErrors (fst r (snd r)) = true)
                   (replicate 2
                      (ReplyExecution.executeReply None ReplyExecution.ReplySent,
                       ReplyExecution.replyRequest "u1" None)))
    by (repeat constructor).
  exact (proj2 (overlapping_requests_are_all_counted _ "u1" _ Hall Hroom)).
Defined.

(** C6 fails on the code. A reply that failed is recorded as a usage when
    the field was requested under an alias: the error codes then stand
    under the alias in the data, where the plugin does not look. The same
    failed reply, not aliased, is not recorded. *)
Lemma failed_reply_under_alias_is_recorded :
  gatedUser (ReplyExecution.replyRequest "u1" (Some "reply")) = Some "u1"
  /\ data (ReplyExecution.replyResponse (Some "reply")
             (ReplyExecution.ReplyFailed ["UNAUTHORIZED"]))
     = JObj [("reply", JObj [("errorCodes", JArr [JStr "UNAUTHORIZED"])])]
  /\ countDailyServiceUsage "u1" action
       (snd (serve (ReplyExecution.executeReply (Some "reply")
                      (ReplyExecution.ReplyFailed ["UNAUTHORIZED"]))
                   (ReplyExecution.replyRequest "u1" (Some "reply"))
                   (mkLedger ∅ 19000 []))) = 1
  /\ countDailyServiceUsage "u1" action
       (snd (serve (ReplyExecution.executeReply None
                      (ReplyExecution.ReplyFailed ["UNAUTHORIZED"]))
                   (ReplyExecution.replyRequest "u1" None)
                   (mkLedger ∅ 19000 []))) = 0.
Proof. by vm_compute. Qed.

End UsageLimitMore.

(** ** More on the viewer fetch *)

Section ViewerFetchMore.
Import ViewerFetcher.

(** X20. When [fetchViewer] ends in an error no viewer has been saved and no
    user has been handed to the event tracker; the error tells which step
    failed: the network, the data service gone, or the save. *)
Theorem failed_fetch_saves_nothing c d e :
  fst (fetchViewer c d) = inl e ->
  savedViewers (snd (fetchViewer c d)) = savedViewers d
  /\ trackedUsers (snd (fetchViewer c d)) = trackedUsers d
  /\ ((answer c = None /\ e = message "http error"
       /\ snd (fetchViewer c d) = d)
      \/ (is_Some (answer c) /\ selfAlive c = false
          /\ e = message "no self found")
      \/ (is_Some (answer c) /\ selfAlive c = true /\ saveSucceeds c = false
          /\ e = message "coredata error")).
Proof.
  unfold fetchViewer, persist.
  destruct (answer c) as [u | ]; [| intros [= <-]; auto 10].
  assert (Hanswered : is_Some (Some u)) by eauto.
  simpl. destruct (selfAlive c).
  - destruct (saveSucceeds c); [done |]. intros [= <-].
    destruct (userIdKey d), (userIntercomHash u); simpl; auto 10.
  - intros [= <-].
    destruct (userIdKey d), (userIntercomHash u); simpl; auto 10.
Qed.

Lemma failed_fetch_saves_nothing_witness :
  savedViewers (snd (fetchViewer (mkConditions (answer digestOff) true false)
                                 firstLaunch)) = []
  /\ trackedUsers (snd (fetchViewer (mkConditions (answer digestOff) true false)
                                    firstLaunch)) = [].
Proof.
  destruct (failed_fetch_saves_nothing
              (mkConditions (answer digestOff) true false) firstLaunch
              (message "coredata error") eq_refl)
    as (Hsaved & Htracked & _).
  split; [exact Hsaved | exact Htracked].
Defined.

(** X21. The user id kept in the user defaults is written once: a stored id is
    never replaced, whatever account the server answers with, and no
    intercom user is registered then. With none stored, any answer of the
    server stores the account's id and registers it, even when the fetch
    then ends in an error. *)
Theorem stored_user_id_is_kept c d :
  (forall k, userIdKey d = Some k ->
             userIdKey (snd (fetchViewer c d)) = Some k
             /\ registeredIntercomUsers (snd (fetchViewer c d))
                = registeredIntercomUsers d)
  /\ (forall u, userIdKey d = None -> answer c = Some u ->
                userIdKey (snd (fetchViewer c d)) = Some (userId u)
                /\ registeredIntercomUsers (snd (fetchViewer c d))
                   = registeredIntercomUsers d ++ [userId u]).
Proof.
  unfold fetchViewer, persist. split.
  - intros k Hk. rewrite Hk.
    destruct (answer c) as [u | ]; [| done]. simpl.
    by destruct (userIntercomHash u), (selfAlive c), (saveSucceeds c).
  - intros u Hnone ->. rewrite Hnone. simpl.
    by destruct (userIntercomHash u), (selfAlive c), (saveSucceeds c).
Qed.

Lemma stored_user_id_is_kept_witness :
  userIdKey (snd (fetchViewer digestOff (mkDevice (Some "u0") [] [] [] [])))
  = Some "u0"
  /\ userIdKey (snd (fetchViewer (mkConditions (answer digestOff) true false)
                                 firstLaunch)) = Some "u1".
Proof.
  split.
  - exact (proj1 (proj1 (stored_user_id_is_kept digestOff
                           (mkDevice (Some "u0") [] [] [] []))
                        "u0" eq_refl)).
  - exact (proj1 (proj2 (stored_user_id_is_kept
                           (mkConditions (answer digestOff) true false)
                           firstLaunch)
                        _ eq_refl eq_refl)).
Defined.

(** X22. A fetch that succeeds saves one viewer carrying the id, the profile's
    username, the name and the profile's picture of the account as the
    server reported them, hands the id to the event tracker, and passes the
    intercom hash on when the account has one. *)
Theorem fetched_viewer_is_saved_as_reported c d u :
  answer c = Some u ->
  selfAlive c = true ->
  saveSucceeds c = true ->
  fst (fetchViewer c d) = inr (selection u)
  /\ savedViewers (snd (fetchViewer c d))
     = savedViewers d
         ++ [mkViewer (userId u) (profileUsername u) (userName u)
                      (pictureUrl u) true]
  /\ trackedUsers (snd (fetchViewer c d)) = trackedUsers d ++ [userId u]
  /\ intercomUserHashes (snd (fetchViewer c d))
     = intercomUserHashes d
         ++ match userIntercomHash u with
            | Some hash => [hash]
            | None => []
            end.
Proof.
  intros Hanswer Halive Hsave. unfold fetchViewer, persist.
  rewrite Hanswer, Halive, Hsave. simpl.
  destruct (userIdKey d), (userIntercomHash u); simpl;
    by rewrite ?app_nil_r.
Qed.

Lemma fetched_viewer_is_saved_as_reported_witness :
  savedViewers (snd (fetchViewer digestOff firstLaunch))
  = [] ++ [mkViewer "u1" "ann" "Ann" None true]
  /\ trackedUsers (snd (fetchViewer digestOff firstLaunch)) = [] ++ ["u1"].
Proof.
  destruct (fetched_viewer_is_saved_as_reported digestOff firstLaunch
              (mkUser "u1" "ann" "Ann" None None
                      (Some [mkFeature "digest" false]))
              eq_refl eq_refl eq_refl)
    as (_ & Hsaved & Htracked & _).
  split; [exact Hsaved | exact Htracked].
Defined.

End ViewerFetchMore.

(** ** The claims set on the database *)

Section ApolloContextFacts.
Import ApolloContext.

(** X23. [setClaims] on a database that answers runs one statement,
    [set_claims], with a user id and a role. The user id is never empty:
    it is the one of the claims when they have a non-empty one, otherwise
    the given [uuid] when that is non-empty, otherwise the all-zero id. The
    role is the administrator's exactly when [userRole] is the admin role,
    and the plain user's otherwise. On a database that does not answer it
    throws and nothing is run. *)
Theorem setClaims_sets_user_and_role adminRole claims em uuid userRole :
  (reachable em = false ->
   setClaims adminRole claims em uuid userRole = (Throws, em))
  /\ (reachable em = true ->
      exists user role,
        setClaims adminRole claims em uuid userRole
        = (Returns tt,
           mkEntityManager
             (ran em ++ [mkQuery "SELECT * from omnivore.set_claims($1, $2)"
                                 [user; role]])
             true)
        /\ user <> ""
        /\ (forall c, claims = Some c -> uid c <> "" -> user = uid c)
        /\ (claims = None \/ claims = Some (mkClaims "") ->
            (forall u, uuid = Some u -> u <> "" -> user = u)
            /\ (uuid = None \/ uuid = Some "" -> user = nobody))
        /\ (role = "omnivore_admin" <-> userRole = Some adminRole)
        /\ (role = "omnivore_admin" \/ role = "omnivore_user")).
Proof.
  unfold setClaims, emQuery. split; intros ->; [done |].
  eexists _, _. split; [reflexivity |].
  unfold claimedUid, orString, orElse, dbRole, nobody.
  repeat split.
  - destruct claims as [[c] | ], uuid as [u | ]; simpl;
      repeat (match goal with
              | |- context [String.eqb ?a ?b] => destruct (String.eqb_spec a b)
              end; simpl);
      congruence.
  - intros c -> Hc. simpl.
    destruct (String.eqb_spec (uid c) ""); [done |]. simpl.
    by destruct (String.eqb_spec (uid c) "").
  - intros u -> Hu. destruct H as [-> | ->]; simpl;
      by destruct (String.eqb_spec u "").
  - intros Huuid. by destruct H as [-> | ->], Huuid as [-> | ->].
  - destruct userRole as [r | ]; [| done].
    destruct (String.eqb_spec r adminRole); [intros _; by subst | done].
  - intros [= ->]. by rewrite String.eqb_refl.
  - destruct userRole as [r | ]; [| by right].
    destruct (String.eqb r adminRole); [by left | by right].
Qed.

Lemma setClaims_sets_user_and_role_witness :
  setClaims "admin" None (mkEntityManager [] true) (Some "u7") (Some "user")
  = (Returns tt,
     mkEntityManager
       ([] ++ [mkQuery "SELECT * from omnivore.set_claims($1, $2)"
                       ["u7"; "omnivore_user"]])
       true).
Proof.
  destruct (proj2 (setClaims_sets_user_and_role "admin" None
                     (mkEntityManager [] true) (Some "u7") (Some "user"))
                  eq_refl)
    as (user & role & Hrun & _ & _ & Huuid & Hrole & Hroles).
  rewrite Hrun.
  rewrite (proj1 (Huuid (or_introl eq_refl)) "u7" eq_refl ltac:(discriminate)).
  destruct Hroles as [Hadmin | ->]; [| reflexivity].
  apply Hrole in Hadmin. discriminate.
Defined.

End ApolloContextFacts.
